(** * A Discord bot for the Crafty controller: model and verification

    The bot of [Discord_Bot/bot/bot.py] is embedded function by function:
    the API client ([login], [_request] and the operations layered on it),
    the server map ([refresh_server_map]), the authorisation check
    ([is_authorized]), the slash commands and the periodic [update_task].

    Python's coroutines become functions in a state-and-exception monad over
    a [world]: the module's globals, the client's fields, the chat platform's
    cache, and the environment the bot talks to (the remote API, the clock,
    the chat platform), each a stream of answers.  Every interaction with the
    environment is recorded, with its answer, in the world's [trace]. *)

From Stdlib Require Import ZArith QArith Lqa Ascii String List.
From stdpp Require Import base option list strings pretty gmap fin_maps.

Local Open Scope string_scope.
Local Open Scope Z_scope.
Local Set Warnings "-register-all".

(** ** Python values

    What [yaml.safe_load] and [json()] hand to the bot.  Numbers are
    integers: no float takes part in the code below, except the clock,
    which is read as a rational.  A [PDict] lists the items of a dict, so
    its keys are pairwise distinct. *)

Inductive pyval : Type :=
| PNone
| PBool (b : bool)
| PInt (z : Z)
| PStr (s : string)
| PList (l : list pyval)
| PDict (d : list (string * pyval)).

(** [if v:], [not v], [v or w] *)
Definition truthy (v : pyval) : bool :=
  match v with
  | PNone => false
  | PBool b => b
  | PInt z => negb (z =? 0)
  | PStr s => negb (String.eqb s "")
  | PList l => match l with [] => false | _ :: _ => true end
  | PDict d => match d with [] => false | _ :: _ => true end
  end.

(** [a or b] on values *)
Definition py_or (a b : pyval) : pyval := if truthy a then a else b.

(** [s == v] for a string [s]: only a string equals a string. *)
Definition py_eq_str (s : string) (v : pyval) : bool :=
  match v with
  | PStr s' => String.eqb s s'
  | _ => false
  end.

(** dict lookup by key *)
Fixpoint dict_lookup (k : string) (d : list (string * pyval)) : option pyval :=
  match d with
  | [] => None
  | (k', v) :: d' => if String.eqb k k' then Some v else dict_lookup k d'
  end.

(** [hash(v)] succeeds *)
Definition hashable (v : pyval) : bool :=
  match v with
  | PList _ | PDict _ => false
  | _ => true
  end.

(** ** Exceptions *)

Inductive exn : Type :=
| RuntimeError (msg : string)
| ClientConnectionError          (* aiohttp.ClientConnectionError *)
| TimeoutError                   (* asyncio.TimeoutError *)
| ContentTypeError               (* r.json() on a body that is not JSON *)
| AttributeError
| KeyError (key : string)
| TypeError
| DiscordException.              (* raised by a call to the chat platform *)

Inductive result (A : Type) : Type :=
| Ok (a : A)
| Raise (e : exn).
Arguments Ok {A} a.
Arguments Raise {A} e.

(** ** The remote API, as the client sees it *)

Record response := Response {
  r_status : Z;                  (* r.status *)
  r_text : string;               (* await r.text() *)
  r_json : option pyval          (* await r.json(); None: the body does not decode *)
}.

Inductive outcome : Type :=
| Responded (r : response)
| ConnectionFailed
| TimedOut.

Inductive request : Type :=
| LoginPost (url : string) (username password : pyval)
| Request (method url : string) (authorization : option string).

(** ** The chat platform *)

Inductive chat_call : Type :=
| SendMessage (content : string) (ephemeral : bool)
| EditChannel (ch_id : Z) (name : string).

Record member := Member {
  member_id : Z;                 (* ctx.user.id *)
  member_roles : list string     (* role.name for role in ctx.user.roles *)
}.

Record interaction := Interaction { user : member }.

(** ** Configuration, as [load_config] returns it *)

Record config := Config {
  cfg_update_interval : Z;
  cfg_category_name : string;
  allowed_user_ids : list pyval;
  allowed_role_names : list pyval;
  servers : gmap string string
}.

Record crafty_cfg := CraftyCfg {
  base : string;                 (* base_url, without trailing slashes *)
  username : pyval;
  password : pyval;
  bearer_token : pyval
}.

(** ** Log records and the trace *)

Inductive log_entry : Type :=
| UsingStaticToken               (* info: Using static bearer token *)
| LoggedIn                       (* info: Logged in to Crafty API ... *)
| NotReachable                   (* warning: Crafty not reachable ... *)
| RequestTimedOut                (* warning: Crafty request timed out ... *)
| ServerMapIs (m : gmap string string)   (* info: Server map: ... *)
| GuildNotFound (guild_id : Z)   (* warning: Guild ... not found *)
| SkippingUpdate (name : string) (* info: Skipping update for ..., cooldown not reached *)
| FailedToUpdate (friendly : string) (e : exn).  (* warning: Failed to update server ... *)

Inductive event : Type :=
| Http (rq : request) (o : outcome)
| Time (t : Q)
| Chat (c : chat_call) (ok : bool)
| Log (l : log_entry).

(** ** The world *)

Definition stream (A : Type) : Type := nat → A.

Record world := World {
  (* crafty_client *)
  crafty : crafty_cfg;
  _token : pyval;
  (* module globals *)
  _cfg : config;
  SERVERS_CFG : gmap string string;
  CATEGORY_NAME : string;
  update_interval : Z;
  server_map : gmap string string;
  channel_map : list (Z * list (string * Z));
  channel_last_update : gmap Z Q;
  (* the bot's cache of the chat platform: guild id, channel id, channel name *)
  guilds : gmap Z (gmap Z string);
  (* the environment: what it will answer, and what has happened (newest first) *)
  remote : stream outcome;
  clock : stream Q;
  platform : stream bool;
  trace : list event
}.

Definition set_token (v : pyval) (w : world) : world :=
  World (crafty w) v (_cfg w) (SERVERS_CFG w) (CATEGORY_NAME w) (update_interval w)
    (server_map w) (channel_map w) (channel_last_update w) (guilds w)
    (remote w) (clock w) (platform w) (trace w).

Definition set_config (c : config) (w : world) : world :=
  World (crafty w) (_token w) c (servers c) (cfg_category_name c) (cfg_update_interval c)
    (server_map w) (channel_map w) (channel_last_update w) (guilds w)
    (remote w) (clock w) (platform w) (trace w).

Definition set_server_map (m : gmap string string) (w : world) : world :=
  World (crafty w) (_token w) (_cfg w) (SERVERS_CFG w) (CATEGORY_NAME w) (update_interval w)
    m (channel_map w) (channel_last_update w) (guilds w)
    (remote w) (clock w) (platform w) (trace w).

Definition set_channel_last_update (m : gmap Z Q) (w : world) : world :=
  World (crafty w) (_token w) (_cfg w) (SERVERS_CFG w) (CATEGORY_NAME w) (update_interval w)
    (server_map w) (channel_map w) m (guilds w)
    (remote w) (clock w) (platform w) (trace w).

Definition set_guilds (g : gmap Z (gmap Z string)) (w : world) : world :=
  World (crafty w) (_token w) (_cfg w) (SERVERS_CFG w) (CATEGORY_NAME w) (update_interval w)
    (server_map w) (channel_map w) (channel_last_update w) g
    (remote w) (clock w) (platform w) (trace w).

Definition set_remote (r : stream outcome) (w : world) : world :=
  World (crafty w) (_token w) (_cfg w) (SERVERS_CFG w) (CATEGORY_NAME w) (update_interval w)
    (server_map w) (channel_map w) (channel_last_update w) (guilds w)
    r (clock w) (platform w) (trace w).

Definition set_clock (c : stream Q) (w : world) : world :=
  World (crafty w) (_token w) (_cfg w) (SERVERS_CFG w) (CATEGORY_NAME w) (update_interval w)
    (server_map w) (channel_map w) (channel_last_update w) (guilds w)
    (remote w) c (platform w) (trace w).

Definition set_platform (p : stream bool) (w : world) : world :=
  World (crafty w) (_token w) (_cfg w) (SERVERS_CFG w) (CATEGORY_NAME w) (update_interval w)
    (server_map w) (channel_map w) (channel_last_update w) (guilds w)
    (remote w) (clock w) p (trace w).

Definition record (e : event) (w : world) : world :=
  World (crafty w) (_token w) (_cfg w) (SERVERS_CFG w) (CATEGORY_NAME w) (update_interval w)
    (server_map w) (channel_map w) (channel_last_update w) (guilds w)
    (remote w) (clock w) (platform w) (e :: trace w).

(** ** The monad of coroutines: state, and exceptions that keep the state *)

Definition M (A : Type) : Type := world → result A * world.

#[global] Instance M_ret : MRet M := λ A a w, (Ok a, w).

#[global] Instance M_bind : MBind M := λ A B f m w,
  match m w with
  | (Ok a, w') => f a w'
  | (Raise e, w') => (Raise e, w')
  end.

Definition raise {A : Type} (e : exn) : M A := λ w, (Raise e, w).

(** [try: m  except Exception as e: h e] *)
Definition try_except {A : Type} (m : M A) (h : exn → M A) : M A := λ w,
  match m w with
  | (Ok a, w') => (Ok a, w')
  | (Raise e, w') => h e w'
  end.

Definition ask : M world := λ w, (Ok w, w).

Definition modify (f : world → world) : M unit := λ w, (Ok tt, f w).

Definition log (l : log_entry) : M unit := modify (record (Log l)).

Definition lift {A : Type} (r : result A) : M A := λ w, (r, w).

(** [for x in l: body x] *)
Fixpoint for_each {A : Type} (l : list A) (body : A → M unit) : M unit :=
  match l with
  | [] => mret tt
  | x :: l' => body x;; for_each l' body
  end.

(** *** Talking to the environment *)

Definition next {A : Type} (s : stream A) : stream A := λ n, s (S n).

(** one HTTP exchange: the remote's next answer, or a transport failure *)
Definition http (rq : request) : M response := λ w,
  let o := remote w 0%nat in
  let w' := record (Http rq o) (set_remote (next (remote w)) w) in
  match o with
  | Responded r => (Ok r, w')
  | ConnectionFailed => (Raise ClientConnectionError, w')
  | TimedOut => (Raise TimeoutError, w')
  end.

(** [time.time()] *)
Definition time : M Q := λ w,
  let t := clock w 0%nat in
  (Ok t, record (Time t) (set_clock (next (clock w)) w)).

(** one call to the chat platform, which accepts it or raises *)
Definition chat (c : chat_call) : M unit := λ w,
  let ok := platform w 0%nat in
  let w' := record (Chat c ok) (set_platform (next (platform w)) w) in
  if ok then (Ok tt, w') else (Raise DiscordException, w').

(** [await r.json()] *)
Definition decode (r : response) : M pyval :=
  match r_json r with
  | Some js => mret js
  | None => raise ContentTypeError
  end.

(** [v.get(k, dflt)]: only a dict has [get] *)
Definition py_get (v : pyval) (k : string) (dflt : pyval) : M pyval :=
  match v with
  | PDict d => mret (default dflt (dict_lookup k d))
  | _ => raise AttributeError
  end.

(** [v[k]] for a string key [k] *)
Definition py_item (v : pyval) (k : string) : M pyval :=
  match v with
  | PDict d =>
      match dict_lookup k d with
      | Some x => mret x
      | None => raise (KeyError k)
      end
  | _ => raise TypeError
  end.

(** [for s in v]: the items a value yields, if it is iterable *)
Definition py_iter (v : pyval) : M (list pyval) :=
  match v with
  | PList l => mret l
  | PDict d => mret (map (λ kv, PStr (fst kv)) d)
  | PStr s => mret (map (λ c, PStr (String c EmptyString)) (list_ascii_of_string s))
  | _ => raise TypeError
  end.

Definition CHANNEL_COOLDOWN : Q := 15%Q.

(** ** What the bot takes from outside its own code

    Python's [repr] of a list or a dict and [str.capitalize] are builtins of
    the language; [load_config] reads and parses the configuration file;
    the channel setup [ensure_channels_for_guild] works on the chat
    platform's guild objects.  The bot is modelled for any behaviour of the
    four. *)

Class Externals := {
  py_repr : pyval → string;
  capitalize : string → string;
  load_config : M config;
  ensure_channels_for_guild : Z → M unit
}.

Section Bot.

Context `{Externals}.

(** [str(v)], and [v] inside an f-string *)
Definition py_str (v : pyval) : string :=
  match v with
  | PNone => "None"
  | PBool true => "True"
  | PBool false => "False"
  | PInt z => pretty z
  | PStr s => s
  | PList _ | PDict _ => py_repr v
  end.

(** ** The API client *)

Definition login : M pyval :=
  w ← ask;
  if truthy (bearer_token (crafty w)) then
    modify (set_token (bearer_token (crafty w)));;
    log UsingStaticToken;;
    w ← ask;
    mret (_token w)
  else
    let url := base (crafty w) +:+ "/api/v2/auth/login" in
    r ← http (LoginPost url (username (crafty w)) (password (crafty w)));
    if 400 <=? r_status r then
      raise (RuntimeError ("Login failed " +:+ pretty (r_status r) +:+ ": " +:+ r_text r))
    else
      js ← decode r;
      data ← py_get js "data" (PDict []);
      t ← py_get data "token" PNone;
      token ← (if truthy t then mret t
               else
                 t' ← py_get js "token" PNone;
                 if truthy t' then mret t' else py_get js "data" PNone);
      if truthy token then
        modify (set_token token);;
        log LoggedIn;;
        mret token
      else
        raise (RuntimeError ("No token found in login response: " +:+ py_str js)).

(** the two [except] clauses of [_request]: log, and raise again *)
Definition reraise_transport {A : Type} (m : M A) : M A :=
  try_except m (λ e,
    match e with
    | ClientConnectionError => log NotReachable;; raise e
    | TimeoutError => log RequestTimedOut;; raise e
    | _ => raise e
    end).

(** The body of [_request].  [retry] is [Some again] when the flag is true,
    [again] being the call [self._request(method, path, retry=False)]. *)
Definition _request_body (method path : string) (retry : option (M pyval)) : M pyval :=
  w ← ask;
  let url := base (crafty w) +:+ path in
  let headers :=
    if truthy (_token w) then Some ("Bearer " +:+ py_str (_token w)) else None in
  reraise_transport (
    r ← http (Request method url headers);
    w ← ask;
    match (if (r_status r =? 401) && negb (truthy (bearer_token (crafty w)))
           then retry else None) with
    | Some again =>
        (* token expired: re-login once *)
        login;;
        again
    | None =>
        if 400 <=? r_status r then
          raise (RuntimeError ("HTTP " +:+ pretty (r_status r) +:+ ": " +:+ r_text r))
        else
          decode r
    end).

Definition _request (method path : string) (retry : bool) : M pyval :=
  _request_body method path
    (if retry then Some (_request_body method path None) else None).

Definition get_servers : M pyval :=
  data ← _request "GET" "/api/v2/servers" true;
  py_get data "data" (PList []).

Definition action_server (server_id action : string) : M pyval :=
  _request "POST" ("/api/v2/servers/" +:+ server_id +:+ "/action/" +:+ action) true.

Definition get_public (server_id : string) : M pyval :=
  data ← _request "GET" ("/api/v2/servers/" +:+ server_id +:+ "/public") true;
  py_get data "data" (PDict []).

Definition get_stats (server_id : string) : M pyval :=
  data ← _request "GET" ("/api/v2/servers/" +:+ server_id +:+ "/stats") true;
  py_get data "data" (PDict []).

(** ** Helpers *)

Definition is_authorized (cfg : config) (ctx : interaction) : bool :=
  if existsb (λ x, String.eqb (py_str (PInt (member_id (user ctx)))) (py_str x))
       (allowed_user_ids cfg)
  then true
  else existsb (λ role, existsb (py_eq_str role) (allowed_role_names cfg))
         (member_roles (user ctx)).

(** The dict comprehension of [refresh_server_map]; the newest item comes
    first, so a lookup finds the value a key was last given. *)
Fixpoint build_id_by_name (servers : list pyval) (acc : list (pyval * string))
  : M (list (pyval * string)) :=
  match servers with
  | [] => mret acc
  | s :: rest =>
      name ← py_item s "server_name";
      sid ← py_item s "server_id";
      if hashable name then build_id_by_name rest ((name, py_str sid) :: acc)
      else raise TypeError
  end.

(** [id_by_name.get(craft_name)] *)
Fixpoint id_by_name_get (craft_name : string) (id_by_name : list (pyval * string))
  : option string :=
  match id_by_name with
  | [] => None
  | (name, sid) :: rest =>
      if py_eq_str craft_name name then Some sid else id_by_name_get craft_name rest
  end.

(** [id_by_name.get(craft_name) or str(craft_name)] *)
Definition resolve (id_by_name : list (pyval * string)) (craft_name : string) : string :=
  match id_by_name_get craft_name id_by_name with
  | Some sid => if String.eqb sid "" then py_str (PStr craft_name) else sid
  | None => py_str (PStr craft_name)
  end.

Definition refresh_server_map : M unit :=
  servers ← get_servers;
  items ← py_iter servers;
  id_by_name ← build_id_by_name items [];
  w ← ask;
  let new_map :=
    map_fold (λ friendly craft_name (new_map : gmap string string),
                <[friendly := resolve id_by_name craft_name]> new_map)
      ∅ (SERVERS_CFG w) in
  modify (set_server_map new_map);;
  log (ServerMapIs new_map).

(** ** Slash commands *)

(** [server_map.get(server)], with [if not sid] *)
Definition known_server (w : world) (server : string) : option string :=
  match server_map w !! server with
  | Some sid => if String.eqb sid "" then None else Some sid
  | None => None
  end.

Definition start (interaction : interaction) (server : string) : M unit :=
  w ← ask;
  if negb (is_authorized (_cfg w) interaction) then
    chat (SendMessage "⛔ Unauthorized" true)
  else
    match known_server w server with
    | None => chat (SendMessage ("❌ Unknown server " +:+ server) true)
    | Some sid =>
        action_server sid "start_server";;
        chat (SendMessage ("✅ Starting " +:+ server) false)
    end.

Definition stop (interaction : interaction) (server : string) : M unit :=
  w ← ask;
  if negb (is_authorized (_cfg w) interaction) then
    chat (SendMessage "⛔ Unauthorized" true)
  else
    match known_server w server with
    | None => chat (SendMessage ("❌ Unknown server " +:+ server) true)
    | Some sid =>
        action_server sid "stop_server";;
        chat (SendMessage ("🛑 Stopping " +:+ server) false)
    end.

Definition restart (interaction : interaction) (server : string) : M unit :=
  w ← ask;
  if negb (is_authorized (_cfg w) interaction) then
    chat (SendMessage "⛔ Unauthorized" true)
  else
    match known_server w server with
    | None => chat (SendMessage ("❌ Unknown server " +:+ server) true)
    | Some sid =>
        action_server sid "restart_server";;
        chat (SendMessage ("🔁 Restarting " +:+ server) false)
    end.

Definition status (interaction : interaction) (server : string) : M unit :=
  w ← ask;
  if negb (is_authorized (_cfg w) interaction) then
    chat (SendMessage "⛔ Unauthorized" true)
  else
    match known_server w server with
    | None => chat (SendMessage ("❌ Unknown server " +:+ server) true)
    | Some sid =>
        data ← get_public sid;
        running ← py_get data "running" PNone;
        online ← py_get data "online" PNone;
        max ← py_get data "max" PNone;
        chat (SendMessage ("📊 " +:+ server +:+ " — running: " +:+ py_str running
                           +:+ ", players: " +:+ py_str online +:+ "/" +:+ py_str max)
                false)
    end.

Definition reload_config (interaction : interaction) : M unit :=
  w ← ask;
  if negb (is_authorized (_cfg w) interaction) then
    chat (SendMessage "⛔ Unauthorized" true)
  else
    cfg ← load_config;
    modify (set_config cfg);;
    refresh_server_map;;
    w ← ask;
    for_each (map fst (map_to_list (guilds w))) ensure_channels_for_guild;;
    chat (SendMessage "✅ Config reloaded." true).

(** ** Background task *)

(** the name [update_task] wants a channel to have *)
Definition new_name (friendly : string) (running : bool) : string :=
  if running then "🟢 " +:+ capitalize friendly +:+ ": Online"
  else "🔴 " +:+ capitalize friendly +:+ ": Offline".

(** [guild.get_channel(ch_id)], then [ch.name] *)
Definition get_channel (w : world) (guild_id ch_id : Z) : option string :=
  g ← guilds w !! guild_id; g !! ch_id.

(** [await ch.edit(name=...)]; the cache shows an accepted edit at once *)
Definition edit (guild_id ch_id : Z) (name : string) : M unit :=
  chat (EditChannel ch_id name);;
  modify (λ w, set_guilds (alter (insert ch_id name) guild_id (guilds w)) w).

(** the body of the inner loop of [update_task], for one binding *)
Definition update_binding (guild_id : Z) (friendly : string) (ch_id : Z) : M unit :=
  w ← ask;
  match known_server w friendly with
  | None => mret tt
  | Some sid =>
      try_except (
        data ← get_stats sid;
        r ← py_get data "running" PNone;
        let running := truthy r in
        (* Only show Online/Offline now *)
        let name := new_name friendly running in
        w ← ask;
        match get_channel w guild_id ch_id with
        | Some current =>
            if negb (String.eqb current name) then
              now ← time;
              w ← ask;
              let last := default 0%Q (channel_last_update w !! ch_id) in
              if Qlt_le_dec (now - last) CHANNEL_COOLDOWN then
                log (SkippingUpdate current)
              else
                edit guild_id ch_id name;;
                modify (λ w, set_channel_last_update
                               (<[ch_id := now]> (channel_last_update w)) w)
            else mret tt
        | None => mret tt
        end)
        (λ e, log (FailedToUpdate friendly e))
  end.

(** One run of the loop body.  The run is taken without another coroutine
    getting a turn at its awaits: an insertion into [channel_map] during a
    cycle, at which Python's iteration over the dict raises, is outside this
    model. *)
Definition update_task : M unit :=
  refresh_server_map;;
  w ← ask;
  for_each (channel_map w) (λ '(guild_id, per_guild_map),
    w ← ask;
    match guilds w !! guild_id with
    | None => log (GuildNotFound guild_id)
    | Some _ =>
        for_each per_guild_map (λ '(friendly, ch_id),
          update_binding guild_id friendly ch_id)
    end).

End Bot.

(** ** Reading a trace *)

(** the HTTP exchanges of a trace, newest first *)
Fixpoint http_requests (tr : list event) : list request :=
  match tr with
  | [] => []
  | Http rq _ :: tr' => rq :: http_requests tr'
  | _ :: tr' => http_requests tr'
  end.

(** how many credential exchanges a trace holds *)
Fixpoint logins (tr : list event) : nat :=
  match tr with
  | [] => 0
  | Http (LoginPost _ _ _) _ :: tr' => S (logins tr')
  | _ :: tr' => logins tr'
  end.

(** the calls made to the chat platform, newest first *)
Fixpoint chat_calls (tr : list event) : list chat_call :=
  match tr with
  | [] => []
  | Chat c _ :: tr' => c :: chat_calls tr'
  | _ :: tr' => chat_calls tr'
  end.

(** the log records of a trace, newest first *)
Fixpoint logged (tr : list event) : list log_entry :=
  match tr with
  | [] => []
  | Log l :: tr' => l :: logged tr'
  | _ :: tr' => logged tr'
  end.

(** the latest reading of the clock *)
Fixpoint last_reading (tr : list event) : Q :=
  match tr with
  | [] => 0%Q
  | Time t :: _ => t
  | _ :: tr' => last_reading tr'
  end.

(** The renames the chat platform accepted, newest first: the channel, and
    the reading of the clock that [update_task] took for the rename. *)
Fixpoint renames (tr : list event) : list (Z * Q) :=
  match tr with
  | [] => []
  | Chat (EditChannel ch_id _) true :: tr' => (ch_id, last_reading tr') :: renames tr'
  | _ :: tr' => renames tr'
  end.

(** every rename is at least the cooldown after the earlier renames of its channel *)
Fixpoint spaced (rs : list (Z * Q)) : Prop :=
  match rs with
  | [] => True
  | (ch_id, t) :: rs' =>
      (∀ t', In (ch_id, t') rs' → (CHANNEL_COOLDOWN <= t - t')%Q) ∧ spaced rs'
  end.

(** every rename has left a timestamp for its channel that is not older *)
Definition stamped (w : world) : Prop :=
  ∀ ch_id t, In (ch_id, t) (renames (trace w)) →
    ∃ last, channel_last_update w !! ch_id = Some last ∧ (t <= last)%Q.

(** the invariant of the cooldown *)
Definition cooled (w : world) : Prop := spaced (renames (trace w)) ∧ stamped w.

(** a world that keeps the invariant of the one before *)
Definition keeps_cool (w w' : world) : Prop := cooled w → cooled w'.

(** [tr'] is [tr] with events that satisfy [P] put on top *)
Inductive extends (P : event → Prop) (tr : list event) : list event → Prop :=
| extends_refl : extends P tr tr
| extends_cons e tr' : P e → extends P tr tr' → extends P tr (e :: tr').

(** what the API client leaves in a trace *)
Definition client_event (e : event) : Prop :=
  match e with
  | Http _ _ | Log _ => True
  | _ => False
  end.

(** The API client touches its token, consumes answers of the remote and
    extends the trace; it leaves the rest of the world alone. *)
Record client_step (w w' : world) : Prop := ClientStep {
  step_crafty : crafty w' = crafty w;
  step_cfg : _cfg w' = _cfg w;
  step_SERVERS_CFG : SERVERS_CFG w' = SERVERS_CFG w;
  step_CATEGORY_NAME : CATEGORY_NAME w' = CATEGORY_NAME w;
  step_update_interval : update_interval w' = update_interval w;
  step_server_map : server_map w' = server_map w;
  step_channel_map : channel_map w' = channel_map w;
  step_channel_last_update : channel_last_update w' = channel_last_update w;
  step_guilds : guilds w' = guilds w;
  step_clock : clock w' = clock w;
  step_platform : platform w' = platform w;
  step_trace : extends client_event (trace w) (trace w')
}.

(** [m] moves every world to one related by [R], whatever it returns *)
Definition moves {A : Type} (R : world → world → Prop) (m : M A) : Prop :=
  ∀ w, R w (snd (m w)).

(** ** The remote's server list, as the spec reads it *)

(** [s] is a server whose display name is [craft_name] *)
Definition named (craft_name : string) (s : pyval) : bool :=
  match s with
  | PDict d =>
      match dict_lookup "server_name" d with
      | Some n => py_eq_str craft_name n
      | None => false
      end
  | _ => false
  end.

(** the identifier of a server *)
Definition server_id_of (s : pyval) : pyval :=
  match s with
  | PDict d => default PNone (dict_lookup "server_id" d)
  | _ => PNone
  end.

(** the last server of the list whose display name is [craft_name] *)
Fixpoint last_named (craft_name : string) (items : list pyval) : option pyval :=
  match items with
  | [] => None
  | s :: rest =>
      match last_named craft_name rest with
      | Some s' => Some s'
      | None => if named craft_name s then Some s else None
      end
  end.

(** ** The worlds the bot can be in *)

Section Reachable.

Context `{Externals}.

(** From start-up, where no channel was renamed and no timestamp recorded,
    the world moves by poll cycles, and by anything else (commands, the
    platform, people) that neither has the bot rename a channel nor
    touches the timestamps. *)
Inductive reachable : world → Prop :=
| reach_start w :
    renames (trace w) = [] → channel_last_update w = ∅ → reachable w
| reach_cycle w :
    reachable w → reachable (snd (update_task w))
| reach_other w w' :
    reachable w →
    renames (trace w') = renames (trace w) →
    channel_last_update w' = channel_last_update w →
    reachable w'.

End Reachable.

(** ** The steps of a request *)

Section Steps.

Context `{Externals}.

(** the [Authorization] header [_request] sends *)
Definition auth_header (w : world) : option string :=
  if truthy (_token w) then Some ("Bearer " +:+ py_str (_token w)) else None.

End Steps.

(** the credential exchange [login] posts *)
Definition login_post (w : world) : request :=
  LoginPost (base (crafty w) +:+ "/api/v2/auth/login")
    (username (crafty w)) (password (crafty w)).

(** the world once the remote has answered [rq] *)
Definition answered (rq : request) (w : world) : world :=
  record (Http rq (remote w 0%nat)) (set_remote (next (remote w)) w).

(** ** Examples: builtins, configurations and worlds *)

Definition ascii_upper (c : ascii) : ascii :=
  let n := nat_of_ascii c in
  if ((97 <=? n) && (n <=? 122))%nat then ascii_of_nat (n - 32) else c.

Definition ascii_lower (c : ascii) : ascii :=
  let n := nat_of_ascii c in
  if ((65 <=? n) && (n <=? 90))%nat then ascii_of_nat (n + 32) else c.

Fixpoint map_string (f : ascii → ascii) (s : string) : string :=
  match s with
  | EmptyString => EmptyString
  | String c s' => String (f c) (map_string f s')
  end.

(** [str.capitalize], as it acts on ASCII strings *)
Definition ascii_capitalize (s : string) : string :=
  match s with
  | EmptyString => EmptyString
  | String c s' => String (ascii_upper c) (map_string ascii_lower s')
  end.

(** [repr], as it acts on values whose strings need no escaping *)
Fixpoint plain_repr (v : pyval) : string :=
  match v with
  | PNone => "None"
  | PBool true => "True"
  | PBool false => "False"
  | PInt z => pretty z
  | PStr s => "'" +:+ s +:+ "'"
  | PList l =>
      "[" +:+ (fix items (l : list pyval) : string :=
                 match l with
                 | [] => ""
                 | x :: [] => plain_repr x
                 | x :: l' => plain_repr x +:+ ", " +:+ items l'
                 end) l +:+ "]"
  | PDict d =>
      "{" +:+ (fix items (d : list (string * pyval)) : string :=
                 match d with
                 | [] => ""
                 | (k, x) :: [] => "'" +:+ k +:+ "': " +:+ plain_repr x
                 | (k, x) :: d' => "'" +:+ k +:+ "': " +:+ plain_repr x +:+ ", " +:+ items d'
                 end) d +:+ "}"
  end.

(** The externals of the examples: the configuration file is unchanged since
    start-up, and the channel setup finds every channel in place. *)
Definition example_externals : Externals := {|
  py_repr := plain_repr;
  capitalize := ascii_capitalize;
  load_config := λ w, (Ok (_cfg w), w);
  ensure_channels_for_guild := λ _, mret tt
|}.

(** the remote answers with the outcomes of [l], then stays unreachable *)
Definition answers (l : list outcome) : stream outcome :=
  λ n, default ConnectionFailed (l !! n).

Definition ok_json (js : pyval) : outcome := Responded (Response 200 "" (Some js)).

Definition example_config : config :=
  Config 60 "Crafty Servers" [PInt 42] [PStr "Admin"] {["survival" := "SMP"]}.

(** A bot configured with a username and a password, in one guild (1) with
    one channel (10) bound to "survival"; the clock reads [now], and the chat
    platform accepts every call. *)
Definition example_world (token : pyval) (remote : stream outcome) (now : Q) : world :=
  World (CraftyCfg "https://crafty.local" (PStr "admin") (PStr "secret") token) PNone
    example_config (servers example_config) "Crafty Servers" 60
    ∅ [(1, [("survival", 10)])] ∅ {[1 := {[10 := "🟢 Survival: Online"]}]}
    remote (λ _, now) (λ _, true) [].

(** a static token is configured, and the remote answers 401 *)
Definition static_token_world : world :=
  example_world (PStr "static") (answers [Responded (Response 401 "expired" None)]) 100.

(** the session token has expired; the remote accepts the re-login *)
Definition relogin_world : world :=
  example_world PNone
    (answers [Responded (Response 401 "expired" None);
              ok_json (PDict [("data", PDict [("token", PStr "T")])]);
              ok_json (PDict [("data", PList [])])])
    100.

(** the session token has expired; the remote refuses the re-login *)
Definition relogin_refused_world : world :=
  example_world PNone
    (answers [Responded (Response 401 "expired" None);
              Responded (Response 500 "down" None)])
    100.

(** nothing to answer: the remote is unreachable *)
Definition idle_world : world := example_world PNone (answers []) 100.

(** a caller with neither an allowed id nor an allowed role *)
Definition stranger : interaction := Interaction (Member 7 ["Member"]).

(** the remote answers the credential exchange with the token as [data] itself *)
Definition token_as_data_world : world :=
  example_world PNone (answers [ok_json (PDict [("data", PStr "abc123")])]) 100.

(** the remote fails the server list with a 500 *)
Definition list_fails_world : world :=
  example_world PNone (answers [Responded (Response 500 "boom" None)]) 100.

(** the remote serves the list, then fails the stats of the one server *)
Definition stats_fail_world : world :=
  example_world PNone
    (answers [ok_json (PDict [("data", PList [PDict [("server_name", PStr "SMP");
                                                     ("server_id", PStr "42")]])]);
              Responded (Response 500 "boom" None)])
    100.

(** the map was filled by an earlier refresh; now the server list fails *)
Definition stale_map_world : world :=
  set_server_map {["survival" := "42"]} list_fails_world.

(** the remote lists the configured server under an empty identifier *)
Definition empty_id_servers : list pyval :=
  [PDict [("server_name", PStr "SMP"); ("server_id", PStr "")]].

Definition empty_id_world : world :=
  example_world PNone (answers [ok_json (PDict [("data", PList empty_id_servers)])]) 100.

(** the remote lists two servers, the configured one with identifier 42 *)
Definition two_servers : list pyval :=
  [PDict [("server_name", PStr "Creative"); ("server_id", PInt 7)];
   PDict [("server_name", PStr "SMP"); ("server_id", PInt 42)]].

Definition two_servers_world : world :=
  example_world PNone (answers [ok_json (PDict [("data", PList two_servers)])]) 100.



(** ** One binding of the poll cycle *)

(** the world once the clock has been read *)
Definition clock_read (w : world) : world :=
  record (Time (clock w 0%nat)) (set_clock (next (clock w)) w).

(** the world once the chat platform has answered the call [c] *)
Definition called (c : chat_call) (w : world) : world :=
  record (Chat c (platform w 0%nat)) (set_platform (next (platform w)) w).

(** the world once channel [ch_id] has been renamed to [name] at [now] *)
Definition renamed (guild_id ch_id : Z) (name : string) (now : Q) (w : world) : world :=
  set_channel_last_update (<[ch_id := now]> (channel_last_update w))
    (set_guilds (alter (insert ch_id name) guild_id (guilds w))
       (called (EditChannel ch_id name) w)).

(** the [running] flag [update_task] reads in the stats *)
Definition running_flag (d : list (string * pyval)) : bool :=
  truthy (default PNone (dict_lookup "running" d)).


(** the clock gives the readings of [l], then 0 *)
Definition readings (l : list Q) : stream Q :=
  λ n, default 0%Q (l !! n).

Definition servers_listed : outcome := ok_json (PDict [("data", PList two_servers)]).

(** the stats of a running server, and of one that is not, being updated *)
Definition running_stats : list (string * pyval) :=
  [("running", PBool true); ("updating", PBool false)].

Definition updating_stats : list (string * pyval) :=
  [("running", PBool false); ("updating", PBool true)].

Definition stats_answer (d : list (string * pyval)) : outcome :=
  ok_json (PDict [("data", PDict d)]).

(** Start-up: the channel carries the name it was created with.  Three
    polls follow, with the clock at 100, 105 and 116: the server runs at the
    first and is being updated at the other two. *)
Definition poll_start_world : world :=
  set_guilds {[1 := {[10 := "🔄 Survival..."]}]}
    (set_clock (readings [100; 105; 116]%Q)
       (example_world PNone
          (answers [servers_listed; stats_answer running_stats;
                    servers_listed; stats_answer updating_stats;
                    servers_listed; stats_answer updating_stats])
          100)).


(** the worlds after each of the three polls, and the worlds of the second
    and third once the server map is refreshed *)
Definition first_cycle : world :=
  snd (@update_task example_externals poll_start_world).

Definition second_poll : world :=
  snd (@refresh_server_map example_externals first_cycle).

Definition second_cycle : world :=
  snd (@update_task example_externals first_cycle).

Definition third_poll : world :=
  snd (@refresh_server_map example_externals second_cycle).

Definition third_cycle : world :=
  snd (@update_task example_externals second_cycle).

(** ** More readings of a trace *)

(** the reading recorded by the latest rename of a channel *)
Fixpoint last_rename (ch_id : Z) (rs : list (Z * Q)) : option Q :=
  match rs with
  | [] => None
  | (c, t) :: rs' => if c =? ch_id then Some t else last_rename ch_id rs'
  end.

(** [w'] is [w] after calls to the chat platform that all satisfy [P] *)
Definition only_calls (P : chat_call → Prop) (w w' : world) : Prop :=
  ∃ new, chat_calls (trace w') = (new ++ chat_calls (trace w))%list ∧ Forall P new.

(** the timestamps are those of the latest renames *)
Definition timestamps_current (w : world) : Prop :=
  ∀ ch_id, channel_last_update w !! ch_id = last_rename ch_id (renames (trace w)).

(** a world that keeps the timestamps current if the one before does *)
Definition keeps_current (w w' : world) : Prop :=
  timestamps_current w → timestamps_current w'.


(** [w'] has the renames and the timestamps of [w] *)
Definition cooldown_frame (w w' : world) : Prop :=
  renames (trace w') = renames (trace w) ∧
  channel_last_update w' = channel_last_update w.


(** ** Start-up: the configuration and the client *)

(** [d.setdefault(k, v)] on the items of a dict *)
Definition setdefault (k : string) (v : pyval) (d : list (string * pyval))
  : list (string * pyval) :=
  match dict_lookup k d with
  | Some _ => d
  | None => d ++ [(k, v)]
  end.

(** [load_config], from the value [yaml.safe_load] made of the file *)
Definition load_config_parsed (parsed : pyval) : result pyval :=
  match parsed with
  | PDict cfg =>
      let cfg := setdefault "update_interval" (PInt 60) cfg in
      let cfg := setdefault "category_name" (PStr "Crafty Servers") cfg in
      let cfg := setdefault "allowed_user_ids" (PList []) cfg in
      let cfg := setdefault "allowed_role_names" (PList []) cfg in
      let cfg := setdefault "servers" (PDict []) cfg in
      Ok (PDict cfg)
  | _ => Raise AttributeError
  end.

(** the value [load_config] gives a key the file does not set *)
Definition config_default (k : string) : option pyval :=
  if String.eqb k "update_interval" then Some (PInt 60)
  else if String.eqb k "category_name" then Some (PStr "Crafty Servers")
  else if String.eqb k "allowed_user_ids" then Some (PList [])
  else if String.eqb k "allowed_role_names" then Some (PList [])
  else if String.eqb k "servers" then Some (PDict [])
  else None.

(** [s.rstrip("/")] *)
Fixpoint rstrip_slash (s : string) : string :=
  match s with
  | EmptyString => EmptyString
  | String c s' =>
      match rstrip_slash s' with
      | EmptyString => if Ascii.eqb c "/" then EmptyString else String c EmptyString
      | t => String c t
      end
  end.

(** [n] slashes *)
Fixpoint slashes (n : nat) : string :=
  match n with
  | O => EmptyString
  | S n' => String "/" (slashes n')
  end.

(** [s.endswith("/")] *)
Fixpoint ends_with_slash (s : string) : bool :=
  match s with
  | EmptyString => false
  | String c EmptyString => Ascii.eqb c "/"
  | String _ s' => ends_with_slash s'
  end.

(** [CraftyClient.__init__], for the fields the requests read: the
    [verify_ssl] flag and the timeout go to the transport. *)
Definition CraftyClient_init (cfg : pyval) : M crafty_cfg :=
  section ← py_item cfg "crafty";
  base_url ← py_item section "base_url";
  base ← match base_url with
         | PStr s => mret (rstrip_slash s)
         | _ => raise AttributeError
         end;
  username ← py_get section "username" PNone;
  password ← py_get section "password" PNone;
  bearer_token ← py_get section "bearer_token" PNone;
  mret (CraftyCfg base username password bearer_token).

(** ** Autocomplete *)

(** [needle in hay], on strings *)
Definition py_in (needle hay : string) : bool :=
  match String.index 0 needle hay with
  | Some _ => true
  | None => false
  end.

(** [server_autocomplete]: [lower] is [str.lower], [names] are the keys of
    [server_map] in the order Python keeps them; a choice is a name and a
    value. *)
Definition server_autocomplete (lower : string → string) (names : list string)
    (current : string) : list (string * string) :=
  take 25 (map (λ n, (n, n))
             (List.filter (λ n, py_in (lower current) (lower n)) names)).


(** an entry of the server list that the dict comprehension accepts *)
Definition well_formed_entry (s : pyval) : bool :=
  match s with
  | PDict d =>
      match dict_lookup "server_name" d, dict_lookup "server_id" d with
      | Some name, Some _ => hashable name
      | _, _ => false
      end
  | _ => false
  end.


(** ** More examples *)

(** a caller whose id is allowed *)
Definition admin : interaction := Interaction (Member 42 []).

(** the third poll, with a chat platform that rejects every call *)
Definition rejecting_poll : world := set_platform (λ _, false) third_poll.

(** the session token has expired; the remote accepts the re-login and is
    then unreachable *)
Definition relogin_then_down_world : world :=
  example_world PNone
    (answers [Responded (Response 401 "expired" None);
              ok_json (PDict [("data", PDict [("token", PStr "T")])])])
    100.

(** the remote answers the credential exchange with data that holds no token *)
Definition tokenless_data : list (string * pyval) := [("user", PStr "admin")].

Definition tokenless_data_world : world :=
  example_world PNone (answers [ok_json (PDict [("data", PDict tokenless_data)])]) 100.

(** "survival" is known as server 42 *)
Definition known_survival (remote : stream outcome) : world :=
  set_server_map {["survival" := "42"]} (example_world PNone remote 100).

(** the remote accepts an action *)
Definition action_world : world :=
  known_survival (answers [ok_json (PDict [("status", PStr "ok")])]).

(** the remote serves public data without [max] *)
Definition public_world : world :=
  known_survival
    (answers [ok_json (PDict [("data", PDict [("running", PBool true);
                                              ("online", PInt 3)])])]).

(** the second entry of the server list has no name *)
Definition nameless_entry : list (string * pyval) := [("server_id", PInt 7)].

Definition malformed_list_world : world :=
  example_world PNone
    (answers [ok_json (PDict [("data",
                PList [PDict [("server_name", PStr "SMP"); ("server_id", PInt 42)];
                       PDict nameless_entry])])])
    100.

(** a configuration file with a [crafty] section and nothing else *)
Definition crafty_section : list (string * pyval) :=
  [("base_url", PStr "https://crafty.local//"); ("username", PStr "admin")].

Definition minimal_yaml : list (string * pyval) := [("crafty", PDict crafty_section)].





(** * Properties *)

Section Properties.
Context `{Externals}.

Lemma run_bind {A B : Type} (m : M A) (f : A → M B) (w : world) :
  (m ≫= f) w =
  match m w with
  | (Ok a, w') => f a w'
  | (Raise e, w') => (Raise e, w')
  end.
Proof. reflexivity. Qed.

Lemma extends_trans (P : event → Prop) (tr1 tr2 tr3 : list event) :
  extends P tr1 tr2 → extends P tr2 tr3 → extends P tr1 tr3.
Proof.
  intros H12 H23. induction H23 as [|e tr3 He _ IH]; [exact H12|].
  constructor; assumption.
Qed.

#[global] Instance client_step_preorder : PreOrder client_step.
Proof.
  split.
  - intros w. split; try reflexivity. constructor.
  - intros w1 w2 w3 [] []. split; try congruence.
    eapply extends_trans; eassumption.
Qed.

Section Moves.
Context (R : world → world → Prop) `{!PreOrder R}.

Lemma moves_ret {A : Type} (a : A) : moves R (mret a).
Proof. intros w. reflexivity. Qed.

Lemma moves_raise {A : Type} (e : exn) : moves R (@raise A e).
Proof. intros w. reflexivity. Qed.

Lemma moves_ask : moves R ask.
Proof. intros w. reflexivity. Qed.

Lemma moves_bind {A B : Type} (m : M A) (f : A → M B) :
  moves R m → (∀ a, moves R (f a)) → moves R (m ≫= f).
Proof.
  intros Hm Hf w. rewrite run_bind. specialize (Hm w).
  destruct (m w) as [[a|e] w']; simpl in *; [|exact Hm].
  etrans; [exact Hm|apply Hf].
Qed.

Lemma moves_try {A : Type} (m : M A) (h : exn → M A) :
  moves R m → (∀ e, moves R (h e)) → moves R (try_except m h).
Proof.
  intros Hm Hh w. unfold try_except. specialize (Hm w).
  destruct (m w) as [[a|e] w']; simpl in *; [exact Hm|].
  etrans; [exact Hm|apply Hh].
Qed.

Lemma moves_for_each {A : Type} (l : list A) (body : A → M unit) :
  (∀ x, moves R (body x)) → moves R (for_each l body).
Proof.
  intros Hb. induction l as [|x l IH]; simpl.
  - apply moves_ret.
  - apply moves_bind; [apply Hb|intros _; exact IH].
Qed.

End Moves.

(** a proof that a coroutine [moves] by [R], following its structure *)
Ltac moves_by prims :=
  repeat first
    [ apply moves_ret | apply moves_raise | apply moves_ask
    | apply moves_bind | apply moves_try | apply moves_for_each
    | match goal with
      | |- PreOrder _ => typeclasses eauto
      | |- ∀ _, _ => intros ?
      end
    | solve [prims]
    | progress cbv zeta
    | match goal with
      | |- moves _ (match (if ?c then _ else _) with _ => _ end) => destruct c
      | |- moves _ (match ?x with _ => _ end) => destruct x
      end ].

Ltac client_prim :=
  split; simpl; try reflexivity; repeat (constructor; simpl; try exact I).

Lemma http_client_step (rq : request) : moves client_step (http rq).
Proof. intros w. unfold http. destruct (remote w 0%nat); client_prim. Qed.

Lemma log_client_step (l : log_entry) : moves client_step (log l).
Proof. intros w. client_prim. Qed.

Lemma set_token_client_step (v : pyval) : moves client_step (modify (set_token v)).
Proof. intros w. client_prim. Qed.

Lemma decode_client_step (r : response) : moves client_step (decode r).
Proof. unfold decode. destruct (r_json r); intros w; client_prim. Qed.

Lemma py_get_client_step (v : pyval) (k : string) (d : pyval) :
  moves client_step (py_get v k d).
Proof. destruct v; intros w; client_prim. Qed.

Ltac client_prims :=
  first [ apply http_client_step | apply log_client_step | apply set_token_client_step
        | apply decode_client_step | apply py_get_client_step ].

Lemma login_client_step : moves client_step login.
Proof. unfold login. moves_by client_prims. Qed.

Lemma _request_body_client_step (method path : string) (retry : option (M pyval)) :
  (∀ again, retry = Some again → moves client_step again) →
  moves client_step (_request_body method path retry).
Proof.
  intros Hretry. unfold _request_body, reraise_transport.
  moves_by ltac:(first [client_prims | apply login_client_step | eapply Hretry; reflexivity]).
Qed.

Lemma _request_client_step (method path : string) (retry : bool) :
  moves client_step (_request method path retry).
Proof.
  unfold _request. apply _request_body_client_step.
  intros again Hagain. destruct retry; [|discriminate].
  injection Hagain as <-. apply _request_body_client_step. discriminate.
Qed.

Lemma get_servers_client_step : moves client_step get_servers.
Proof.
  unfold get_servers.
  moves_by ltac:(first [client_prims | apply _request_client_step]).
Qed.

Lemma get_stats_client_step (sid : string) : moves client_step (get_stats sid).
Proof.
  unfold get_stats.
  moves_by ltac:(first [client_prims | apply _request_client_step]).
Qed.

Lemma get_public_client_step (sid : string) : moves client_step (get_public sid).
Proof.
  unfold get_public.
  moves_by ltac:(first [client_prims | apply _request_client_step]).
Qed.

Lemma action_server_client_step (sid action : string) :
  moves client_step (action_server sid action).
Proof. unfold action_server. apply _request_client_step. Qed.


Ltac run :=
  cbv beta iota zeta delta
    [mbind M_bind mret M_ret ask modify log raise lift try_except
     reraise_transport http decode].

Lemma request_static_token (w : world) (method path : string) (retry : option (M pyval)) :
  truthy (bearer_token (crafty w)) = true →
  _request_body method path retry w = _request_body method path None w.
Proof.
  intros Hb. unfold _request_body. run.
  destruct (remote w 0%nat) as [r| |]; simpl; try reflexivity.
  rewrite Hb, andb_false_r. reflexivity.
Qed.

(** a request that may not retry is one exchange with the remote *)
Lemma request_once (w : world) (method path : string) :
  let rq := Request method (base (crafty w) +:+ path) (auth_header w) in
  let w' := snd (_request_body method path None w) in
  http_requests (trace w') = rq :: http_requests (trace w) ∧
  logins (trace w') = logins (trace w) ∧
  fst (_request_body method path None w) =
    match remote w 0%nat with
    | Responded r =>
        if 400 <=? r_status r
        then Raise (RuntimeError ("HTTP " +:+ pretty (r_status r) +:+ ": " +:+ r_text r))
        else match r_json r with Some js => Ok js | None => Raise ContentTypeError end
    | ConnectionFailed => Raise ClientConnectionError
    | TimedOut => Raise TimeoutError
    end.
Proof.
  unfold _request_body, auth_header. run.
  destruct (remote w 0%nat) as [r| |] eqn:Hr; simpl; rewrite ?Hr; auto.
  destruct ((r_status r =? 401) && negb (truthy (bearer_token (crafty w))));
    destruct (400 <=? r_status r); simpl; rewrite ?Hr; auto;
    destruct (r_json r); simpl; rewrite ?Hr; auto.
Qed.

(** with a username and password, [login] is one exchange with the remote *)
Lemma login_once (w : world) :
  truthy (bearer_token (crafty w)) = false →
  let w' := snd (login w) in
  http_requests (trace w') = login_post w :: http_requests (trace w) ∧
  logins (trace w') = S (logins (trace w)) ∧
  crafty w' = crafty w ∧
  remote w' = next (remote w) ∧
  ∀ token, fst (login w) = Ok token → _token w' = token ∧ truthy token = true.
Proof.
  intros Hb. unfold login, login_post. run. rewrite Hb.
  destruct (remote w 0%nat) as [r| |] eqn:Hr; simpl; rewrite ?Hr;
    try (repeat split; auto; discriminate).
  destruct (400 <=? r_status r); simpl; rewrite ?Hr;
    try (repeat split; auto; discriminate).
  destruct (r_json r) as [js|]; simpl; rewrite ?Hr;
    try (repeat split; auto; discriminate).
  destruct js; simpl; rewrite ?Hr; try (repeat split; auto; discriminate).
  destruct (default (PDict []) (dict_lookup "data" d)) as [| | | | |d'] eqn:Hd;
    simpl; rewrite ?Hr; try (repeat split; auto; discriminate).
  destruct (truthy (default PNone (dict_lookup "token" d'))) eqn:Ht1; simpl.
  { rewrite Ht1; simpl; rewrite ?Hr. repeat split; auto; congruence. }
  destruct (truthy (default PNone (dict_lookup "token" d))) eqn:Ht2; simpl.
  { rewrite Ht2; simpl; rewrite ?Hr. repeat split; auto; congruence. }
  destruct (truthy (default PNone (dict_lookup "data" d))) eqn:Ht3; simpl; rewrite ?Hr.
  { repeat split; auto; congruence. }
  repeat split; auto; discriminate.
Qed.

(** the [except] clauses of [_request] add log records only *)
Lemma reraise_transport_spec {A : Type} (m : M A) (w : world) :
  fst (reraise_transport m w) = fst (m w) ∧
  http_requests (trace (snd (reraise_transport m w))) = http_requests (trace (snd (m w))) ∧
  logins (trace (snd (reraise_transport m w))) = logins (trace (snd (m w))).
Proof.
  unfold reraise_transport. run.
  destruct (m w) as [[a|e] w']; simpl; auto. destruct e; simpl; auto.
Qed.

Lemma request_after_401 (w : world) (method path : string) (r0 : response) :
  truthy (bearer_token (crafty w)) = false →
  remote w 0%nat = Responded r0 →
  r_status r0 = 401 →
  _request method path true w =
  reraise_transport (login;; _request_body method path None)
    (answered (Request method (base (crafty w) +:+ path) (auth_header w)) w).
Proof.
  intros Hb Hr H401. unfold _request, answered, auth_header.
  unfold _request_body at 1. run. rewrite Hr. simpl.
  rewrite Hb, H401. reflexivity.
Qed.

(** after a first 401, with a username and password: one re-login *)
Lemma logins_after_401 (w : world) (method path : string) (r0 : response) :
  truthy (bearer_token (crafty w)) = false →
  remote w 0%nat = Responded r0 →
  r_status r0 = 401 →
  logins (trace (snd (_request method path true w))) = S (logins (trace w)).
Proof.
  intros Hb Hr H401.
  rewrite (request_after_401 w method path r0 Hb Hr H401).
  set (w1 := answered (Request method (base (crafty w) +:+ path) (auth_header w)) w).
  destruct (reraise_transport_spec (login;; _request_body method path None) w1)
    as (_ & _ & ->).
  assert (Hb1 : truthy (bearer_token (crafty w1)) = false) by exact Hb.
  destruct (login_once w1 Hb1) as (_ & Hl & _).
  rewrite run_bind.
  destruct (login w1) as [[token|e] w2]; simpl in *; [|exact Hl].
  destruct (request_once w2 method path) as (_ & -> & _). exact Hl.
Qed.

(** no call of [_request] logs in twice *)
Lemma logins_at_most_once (w : world) (method path : string) (retry : bool) :
  (logins (trace (snd (_request method path retry w))) ≤ S (logins (trace w)))%nat.
Proof.
  destruct retry.
  2:{ unfold _request. destruct (request_once w method path) as (_ & -> & _). lia. }
  destruct (truthy (bearer_token (crafty w))) eqn:Hb.
  { unfold _request. rewrite request_static_token by exact Hb.
    destruct (request_once w method path) as (_ & -> & _). lia. }
  destruct (remote w 0%nat) as [r0| |] eqn:Hr.
  - destruct (r_status r0 =? 401) eqn:H401.
    + apply Z.eqb_eq in H401.
      rewrite (logins_after_401 w method path r0 Hb Hr H401). lia.
    + unfold _request. unfold _request_body at 1. run. rewrite Hr. simpl.
      rewrite H401. simpl.
      destruct (400 <=? r_status r0); simpl; [lia|].
      destruct (r_json r0); simpl; lia.
  - unfold _request. unfold _request_body at 1. run. rewrite Hr. simpl. lia.
  - unfold _request. unfold _request_body at 1. run. rewrite Hr. simpl. lia.
Qed.

(** ** The API client *)

(** C4. With a static bearer token configured, [login] returns that token at
    once: it stores it, logs, and exchanges nothing with the remote.  Every
    [_request] is then a single exchange, never a credential exchange, and a
    401 comes back to the caller as the error of that status: the re-login
    path is not taken. *)
Theorem static_token_never_logs_in (w : world) :
  truthy (bearer_token (crafty w)) = true →
  login w = (Ok (bearer_token (crafty w)),
             record (Log UsingStaticToken) (set_token (bearer_token (crafty w)) w)) ∧
  ∀ (method path : string) (retry : bool),
    let w' := snd (_request method path retry w) in
    http_requests (trace w') =
      Request method (base (crafty w) +:+ path) (auth_header w)
      :: http_requests (trace w) ∧
    logins (trace w') = logins (trace w) ∧
    ∀ r, remote w 0%nat = Responded r → r_status r = 401 →
         fst (_request method path retry w) =
           Raise (RuntimeError ("HTTP " +:+ pretty 401 +:+ ": " +:+ r_text r)).
Proof.
  intros Hb. split.
  - unfold login. run. rewrite Hb. reflexivity.
  - intros method path retry w'. subst w'. unfold _request.
    rewrite request_static_token by exact Hb.
    destruct (request_once w method path) as (Hh & Hl & Hres).
    repeat split; [exact Hh|exact Hl|].
    intros r Hr H401. rewrite Hres, Hr, H401. reflexivity.
Qed.

(** C1 (amended). With a username and password and no static token, a first
    401 has [_request] log in again exactly once.  When that re-login
    succeeds, the same request (method and URL, now under the new token) is
    retried exactly once: a decoded answer below 400 goes to the caller, and
    a second 401, or any other status from 400 up, is raised as the error
    that carries the status and the body.  When the re-login itself fails,
    its error goes to the caller and nothing is retried.  In no case does a
    call of [_request] log in more than once. *)
Theorem relogin_once_then_retry_once (w : world) (method path : string) :
  (∀ retry,
     (logins (trace (snd (_request method path retry w))) ≤ S (logins (trace w)))%nat) ∧
  ∀ r0,
    truthy (bearer_token (crafty w)) = false →
    remote w 0%nat = Responded r0 →
    r_status r0 = 401 →
    let url := base (crafty w) +:+ path in
    let rq := Request method url (auth_header w) in
    let res := fst (_request method path true w) in
    let w' := snd (_request method path true w) in
    logins (trace w') = S (logins (trace w)) ∧
    match login (answered rq w) with
    | (Raise e, _) =>
        res = Raise e ∧
        http_requests (trace w') = login_post w :: rq :: http_requests (trace w)
    | (Ok token, _) =>
        http_requests (trace w') =
          Request method url (Some ("Bearer " +:+ py_str token))
          :: login_post w :: rq :: http_requests (trace w) ∧
        res =
          match remote w 2%nat with
          | Responded r2 =>
              if 400 <=? r_status r2
              then Raise (RuntimeError
                            ("HTTP " +:+ pretty (r_status r2) +:+ ": " +:+ r_text r2))
              else match r_json r2 with
                   | Some js => Ok js
                   | None => Raise ContentTypeError
                   end
          | ConnectionFailed => Raise ClientConnectionError
          | TimedOut => Raise TimeoutError
          end
    end.
Proof.
  split; [intros retry; apply logins_at_most_once|].
  intros r0 Hb Hr H401 url rq res w'. subst res w'.
  rewrite (request_after_401 w method path r0 Hb Hr H401). fold url rq.
  set (w1 := answered rq w).
  destruct (reraise_transport_spec (login;; _request_body method path None) w1)
    as (-> & -> & ->).
  assert (Hb1 : truthy (bearer_token (crafty w1)) = false) by exact Hb.
  destruct (login_once w1 Hb1) as (Hh & Hl & Hc & Hrem & Htok).
  rewrite run_bind.
  destruct (login w1) as [[token|e] w2]; simpl in *.
  - destruct (Htok token eq_refl) as [Ht Htr].
    destruct (request_once w2 method path) as (Hh2 & Hl2 & Hres).
    rewrite Hh2, Hl2, Hres, Hh, Hl, Hc, Hrem.
    unfold auth_header. rewrite Ht, Htr. auto.
  - rewrite Hh, Hl. auto.
Qed.

(** ** Authorisation *)




(** ** The server map *)

Lemma py_iter_pure (v : pyval) (w : world) : py_iter v w = (fst (py_iter v w), w).
Proof. destruct v; reflexivity. Qed.

Lemma py_item_pure (v : pyval) (k : string) (w : world) :
  py_item v k w = (fst (py_item v k w), w).
Proof. destruct v; try reflexivity. simpl. destruct (dict_lookup k d); reflexivity. Qed.

Lemma build_id_by_name_pure (items : list pyval) (acc : list (pyval * string)) (w : world) :
  snd (build_id_by_name items acc w) = w.
Proof.
  revert acc. induction items as [|s rest IH]; intros acc; simpl; [reflexivity|].
  rewrite run_bind, (py_item_pure s "server_name").
  destruct (fst (py_item s "server_name" w)) as [name|e]; [|reflexivity].
  rewrite run_bind, (py_item_pure s "server_id").
  destruct (fst (py_item s "server_id" w)) as [sid|e]; [|reflexivity].
  destruct (hashable name); [apply IH|reflexivity].
Qed.

(** the dict comprehension keeps, for a name, the last server so named *)
Lemma build_id_by_name_get (craft_name : string) (items : list pyval)
    (acc ids : list (pyval * string)) (w : world) :
  fst (build_id_by_name items acc w) = Ok ids →
  id_by_name_get craft_name ids =
    match last_named craft_name items with
    | Some s => Some (py_str (server_id_of s))
    | None => id_by_name_get craft_name acc
    end.
Proof.
  revert acc. induction items as [|s rest IH]; intros acc; simpl.
  - intros [= ->]. reflexivity.
  - rewrite run_bind, (py_item_pure s "server_name").
    destruct s as [| | | | |d]; simpl; try discriminate.
    destruct (dict_lookup "server_name" d) as [name|] eqn:Hname; simpl; [|discriminate].
    rewrite run_bind. simpl.
    destruct (dict_lookup "server_id" d) as [sid|] eqn:Hsid; simpl; [|discriminate].
    destruct (hashable name); [|discriminate].
    intros Hids. rewrite (IH _ Hids).
    destruct (last_named craft_name rest); [reflexivity|].
    simpl. destruct (py_eq_str craft_name name); [|reflexivity].
    unfold server_id_of. rewrite Hsid. reflexivity.
Qed.

(** the loop over [SERVERS_CFG] resolves every configured name *)
Lemma new_map_fmap (ids : list (pyval * string)) (cfg : gmap string string) :
  map_fold (λ friendly craft_name (new_map : gmap string string),
              <[friendly := resolve ids craft_name]> new_map) ∅ cfg
  = resolve ids <$> cfg.
Proof.
  apply (map_fold_weak_ind (λ acc m, acc = resolve ids <$> m)).
  - rewrite fmap_empty. reflexivity.
  - intros friendly craft_name m acc _ ->. rewrite fmap_insert. reflexivity.
Qed.

(** [refresh_server_map], step by step *)
Lemma refresh_server_map_unfold (w : world) :
  refresh_server_map w =
  match get_servers w with
  | (Raise e, w1) => (Raise e, w1)
  | (Ok servers, w1) =>
      match fst ((items ← py_iter servers; build_id_by_name items []) w1) with
      | Raise e => (Raise e, w1)
      | Ok ids =>
          let new_map := resolve ids <$> SERVERS_CFG w1 in
          (Ok tt, record (Log (ServerMapIs new_map)) (set_server_map new_map w1))
      end
  end.
Proof.
  unfold refresh_server_map. rewrite run_bind.
  destruct (get_servers w) as [[servers|e] w1]; [|reflexivity].
  rewrite !run_bind, (py_iter_pure servers w1).
  destruct (fst (py_iter servers w1)) as [items|e]; [|reflexivity].
  rewrite run_bind.
  pose proof (build_id_by_name_pure items [] w1) as Hpure.
  destruct (build_id_by_name items [] w1) as [[ids|e] w2]; simpl in *; subst w2;
    [|reflexivity].
  run. rewrite new_map_fmap. reflexivity.
Qed.

(** C5. When the fetch of the remote server list raises, [refresh_server_map]
    raises the same error and the server map is the one it was; whenever
    [refresh_server_map] raises, for any reason, the map is the one it was;
    while the fetch is under way, and when it returns, the map is still the
    previous one; and when [refresh_server_map] returns, the map it has
    published has an entry for every configured friendly name.  So the map
    is replaced whole or not at all. *)
Theorem refresh_failure_keeps_server_map (w : world) :
  (∀ e w1, get_servers w = (Raise e, w1) →
           refresh_server_map w = (Raise e, w1) ∧ server_map w1 = server_map w) ∧
  (∀ e w', refresh_server_map w = (Raise e, w') → server_map w' = server_map w) ∧
  (∀ res w1, get_servers w = (res, w1) → server_map w1 = server_map w) ∧
  (∀ w', refresh_server_map w = (Ok tt, w') →
         ∃ ids, server_map w' = resolve ids <$> SERVERS_CFG w).
Proof.
  pose proof (get_servers_client_step w) as Hstep.
  rewrite refresh_server_map_unfold.
  destruct (get_servers w) as [[servers|e0] w1]; simpl in Hstep.
  - destruct (fst ((items ← py_iter servers; build_id_by_name items []) w1))
      as [ids|e1]; cbv zeta.
    + split; [discriminate|]. split; [discriminate|]. split.
      * intros res w2 [= <- <-]. apply Hstep.
      * intros w' [= <-]. exists ids. simpl.
        rewrite (step_SERVERS_CFG _ _ Hstep). reflexivity.
    + split; [discriminate|]. split; [|split; [|discriminate]].
      * intros e w' [= <- <-]. apply Hstep.
      * intros res w2 [= <- <-]. apply Hstep.
  - split; [|split; [|split; [|discriminate]]].
    + intros e w2 [= <- <-]. split; [reflexivity|apply Hstep].
    + intros e w' [= <- <-]. apply Hstep.
    + intros res w2 [= <- <-]. apply Hstep.
Qed.

(** C6 (amended). When [refresh_server_map] returns, a configured pair whose
    remote name is the display name of no server of the fetched list is
    mapped to the configured value itself; a pair whose remote name matches
    is mapped to the identifier (as a string) of the last server of the list
    with that display name, unless that string is empty, in which case the
    pair is again mapped to the configured value. *)
Theorem refresh_resolves_configured_names
    (w w1 w' : world) (items : list pyval) (friendly craft_name : string) :
  get_servers w = (Ok (PList items), w1) →
  refresh_server_map w = (Ok tt, w') →
  SERVERS_CFG w !! friendly = Some craft_name →
  server_map w' !! friendly =
    Some match last_named craft_name items with
         | None => craft_name
         | Some s =>
             if String.eqb (py_str (server_id_of s)) "" then craft_name
             else py_str (server_id_of s)
         end.
Proof.
  intros Hget Hrefresh Hcfg.
  pose proof (get_servers_client_step w) as Hstep. rewrite Hget in Hstep.
  rewrite refresh_server_map_unfold, Hget in Hrefresh.
  rewrite run_bind in Hrefresh. simpl in Hrefresh, Hstep.
  destruct (build_id_by_name items [] w1) as [[ids|e] w2] eqn:Hbuild;
    simpl in Hrefresh; [|discriminate].
  injection Hrefresh as <-. simpl.
  rewrite lookup_fmap, (step_SERVERS_CFG _ _ Hstep), Hcfg. simpl. f_equal.
  unfold resolve.
  rewrite (build_id_by_name_get craft_name items [] ids w1)
    by (rewrite Hbuild; reflexivity).
  destruct (last_named craft_name items); reflexivity.
Qed.


(** ** One binding of the poll cycle *)

(** what [update_binding] does, case by case *)
Lemma update_binding_unfold (guild_id : Z) (friendly : string) (ch_id : Z) (w : world) :
  update_binding guild_id friendly ch_id w =
  match known_server w friendly with
  | None => (Ok tt, w)
  | Some sid =>
      match get_stats sid w with
      | (Raise e, w1) => (Ok tt, record (Log (FailedToUpdate friendly e)) w1)
      | (Ok (PDict d), w1) =>
          let name := new_name friendly (running_flag d) in
          match get_channel w1 guild_id ch_id with
          | None => (Ok tt, w1)
          | Some current =>
              if String.eqb current name then (Ok tt, w1)
              else
                let now := clock w1 0%nat in
                let w2 := clock_read w1 in
                if Qlt_le_dec (now - default 0%Q (channel_last_update w1 !! ch_id))
                     CHANNEL_COOLDOWN
                then (Ok tt, record (Log (SkippingUpdate current)) w2)
                else if platform w1 0%nat
                then (Ok tt, renamed guild_id ch_id name now w2)
                else (Ok tt, record (Log (FailedToUpdate friendly DiscordException))
                               (called (EditChannel ch_id name) w2))
          end
      | (Ok _, w1) => (Ok tt, record (Log (FailedToUpdate friendly AttributeError)) w1)
      end
  end.
Proof.
  unfold update_binding. rewrite run_bind. unfold ask at 1.
  destruct (known_server w friendly) as [sid|]; [|reflexivity].
  unfold try_except at 1. rewrite run_bind.
  destruct (get_stats sid w) as [[data|e] w1]; [|reflexivity].
  destruct data; try reflexivity.
  rewrite run_bind. simpl py_get. unfold mret at 1, M_ret at 1. cbv zeta.
  rewrite run_bind. unfold ask at 1.
  fold (running_flag d).
  destruct (get_channel w1 guild_id ch_id) as [current|]; [|reflexivity].
  destruct (String.eqb current (new_name friendly (running_flag d))); [reflexivity|].
  change (negb false) with true. cbv iota. rewrite run_bind. unfold time at 1. cbv zeta.
  rewrite run_bind. unfold ask at 1. fold (clock_read w1).
  change (channel_last_update (clock_read w1)) with (channel_last_update w1).
  destruct (Qlt_le_dec _ _); [reflexivity|].
  unfold edit. rewrite !run_bind. unfold chat at 1.
  change (platform (clock_read w1) 0%nat) with (platform w1 0%nat).
  destruct (platform w1 0%nat) eqn:Hok; [|unfold called; simpl; rewrite Hok; reflexivity].
  unfold renamed, called. simpl. rewrite Hok. reflexivity.
Qed.

(** the API client neither calls the chat platform nor renames a channel *)
Lemma extends_client_quiet (tr tr' : list event) :
  extends client_event tr tr' →
  chat_calls tr' = chat_calls tr ∧ renames tr' = renames tr.
Proof.
  induction 1 as [|e tr' He _ IH]; [split; reflexivity|].
  destruct e; simpl in *; try contradiction; exact IH.
Qed.

Lemma client_step_chat_calls (w w' : world) :
  client_step w w' → chat_calls (trace w') = chat_calls (trace w).
Proof. intros Hstep. apply extends_client_quiet, (step_trace _ _ Hstep). Qed.

Lemma client_step_renames (w w' : world) :
  client_step w w' → renames (trace w') = renames (trace w).
Proof. intros Hstep. apply extends_client_quiet, (step_trace _ _ Hstep). Qed.

Lemma client_step_get_channel (w w' : world) (guild_id ch_id : Z) :
  client_step w w' → get_channel w' guild_id ch_id = get_channel w guild_id ch_id.
Proof. intros Hstep. unfold get_channel. rewrite (step_guilds _ _ Hstep). reflexivity. Qed.

(** a rename shows in the cache of the guild that holds the channel *)
Lemma get_channel_renamed (guild_id ch_id : Z) (name current : string) (now : Q) (w : world) :
  get_channel w guild_id ch_id = Some current →
  get_channel (renamed guild_id ch_id name now w) guild_id ch_id = Some name.
Proof.
  unfold get_channel, renamed. simpl. intros Hch.
  destruct (guilds w !! guild_id) as [g|] eqn:Hg; [|discriminate].
  rewrite lookup_alter_eq, Hg. simpl. apply lookup_insert_eq.
Qed.

(** ** The cooldown *)

#[global] Instance keeps_cool_preorder : PreOrder keeps_cool.
Proof. split; [intros w Hw; exact Hw|intros w1 w2 w3 H12 H23 Hw; auto]. Qed.

Lemma quiet_keeps_cool (w w' : world) :
  renames (trace w') = renames (trace w) →
  channel_last_update w' = channel_last_update w →
  keeps_cool w w'.
Proof.
  intros Hr Hc [Hs Hst]. split; [rewrite Hr; exact Hs|].
  intros ch_id t Hin. rewrite Hr in Hin. rewrite Hc. exact (Hst _ _ Hin).
Qed.

Lemma client_step_keeps_cool (w w' : world) : client_step w w' → keeps_cool w w'.
Proof.
  intros Hstep. apply quiet_keeps_cool;
    [apply client_step_renames, Hstep|apply (step_channel_last_update _ _ Hstep)].
Qed.

Lemma renames_renamed (guild_id ch_id : Z) (name : string) (w : world) :
  platform w 0%nat = true →
  renames (trace (renamed guild_id ch_id name (clock w 0%nat) (clock_read w))) =
    (ch_id, clock w 0%nat) :: renames (trace w).
Proof. intros Hok. unfold renamed, called, clock_read. simpl. rewrite Hok. reflexivity. Qed.

(** the one step that renames: it is taken once the cooldown has elapsed *)
Lemma renamed_keeps_cool (guild_id ch_id : Z) (name : string) (w : world) :
  platform w 0%nat = true →
  (CHANNEL_COOLDOWN <= clock w 0%nat - default 0%Q (channel_last_update w !! ch_id))%Q →
  keeps_cool w (renamed guild_id ch_id name (clock w 0%nat) (clock_read w)).
Proof.
  intros Hok Hgap [Hs Hst]. unfold cooled, stamped.
  rewrite renames_renamed by exact Hok. unfold CHANNEL_COOLDOWN in Hgap.
  split; [split; [|exact Hs]|].
  - intros t' Hin. destruct (Hst _ _ Hin) as (last & Hlast & Hle).
    rewrite Hlast in Hgap. simpl in Hgap. unfold CHANNEL_COOLDOWN. lra.
  - intros c t [Hhd|Hin]; simpl.
    + injection Hhd as <- <-. rewrite lookup_insert_eq. eexists; split; [reflexivity|].
      apply Qle_refl.
    + destruct (Hst _ _ Hin) as (last & Hlast & Hle).
      destruct (decide (c = ch_id)) as [->|Hne].
      * rewrite lookup_insert_eq. eexists; split; [reflexivity|].
        rewrite Hlast in Hgap. simpl in Hgap. lra.
      * rewrite lookup_insert_ne by congruence. eauto.
Qed.

Lemma update_binding_keeps_cool (guild_id : Z) (friendly : string) (ch_id : Z) :
  moves keeps_cool (update_binding guild_id friendly ch_id).
Proof.
  intros w. rewrite update_binding_unfold.
  destruct (known_server w friendly) as [sid|]; [|reflexivity].
  pose proof (get_stats_client_step sid w) as Hstep.
  destruct (get_stats sid w) as [[data|e] w1]; simpl in Hstep;
    apply client_step_keeps_cool in Hstep;
    (etrans; [exact Hstep|]); [|apply quiet_keeps_cool; reflexivity].
  destruct data; try (apply quiet_keeps_cool; reflexivity). cbv zeta.
  destruct (get_channel w1 guild_id ch_id) as [current|]; [|reflexivity].
  destruct (String.eqb current _); [reflexivity|].
  destruct (Qlt_le_dec _ _) as [Hlt|Hle]; [apply quiet_keeps_cool; reflexivity|].
  destruct (platform w1 0%nat) eqn:Hok; [|apply quiet_keeps_cool; simpl; rewrite ?Hok; reflexivity].
  apply renamed_keeps_cool; assumption.
Qed.

Lemma refresh_server_map_keeps_cool : moves keeps_cool refresh_server_map.
Proof.
  intros w. rewrite refresh_server_map_unfold.
  pose proof (get_servers_client_step w) as Hstep.
  destruct (get_servers w) as [[servers|e] w1]; simpl in Hstep;
    apply client_step_keeps_cool in Hstep; [|exact Hstep].
  destruct (fst _); simpl; [|exact Hstep].
  etrans; [exact Hstep|]. apply quiet_keeps_cool; reflexivity.
Qed.

Lemma update_task_keeps_cool : moves keeps_cool update_task.
Proof.
  unfold update_task.
  apply moves_bind; [typeclasses eauto|apply refresh_server_map_keeps_cool|intros _].
  apply moves_bind; [typeclasses eauto|apply moves_ask; typeclasses eauto|intros w0].
  apply moves_for_each; [typeclasses eauto|intros [guild_id per_guild_map]].
  apply moves_bind; [typeclasses eauto|apply moves_ask; typeclasses eauto|intros w1].
  destruct (guilds w1 !! guild_id).
  - apply moves_for_each; [typeclasses eauto|intros [friendly ch_id]].
    apply update_binding_keeps_cool.
  - intros w2. apply quiet_keeps_cool; reflexivity.
Qed.

Lemma reachable_cooled (w : world) : reachable w → cooled w.
Proof.
  induction 1 as [w Hr Hc|w _ IH|w w' _ IH Hr Hc].
  - split; [rewrite Hr; exact I|]. intros ch_id t Hin. rewrite Hr in Hin. destruct Hin.
  - exact (update_task_keeps_cool w IH).
  - exact (quiet_keeps_cool w w' Hr Hc IH).
Qed.

Lemma spaced_app (pre post : list (Z * Q)) (ch_id : Z) (t t' : Q) :
  spaced (pre ++ (ch_id, t) :: post) → In (ch_id, t') post →
  (CHANNEL_COOLDOWN <= t - t')%Q.
Proof.
  induction pre as [|[c u] pre IH]; simpl; intros [Hhd Hs] Hin; [apply Hhd, Hin|].
  exact (IH Hs Hin).
Qed.

(** C9. When [update_task] has the stats of a binding's server, the name it
    wants for the channel is fixed by the friendly name and the truth value
    of the stats' [running] field alone, and is one of two: the Online form
    when the field is truthy, the Offline form for anything else (false,
    absent, or whatever else the remote reports).  The binding calls the
    chat platform at most once, to give the bound channel that name, and the
    channel ends with the name it had or with that name. *)
Theorem desired_name_follows_running_flag
    (w w1 : world) (guild_id ch_id : Z) (friendly sid : string)
    (d : list (string * pyval)) :
  known_server w friendly = Some sid →
  get_stats sid w = (Ok (PDict d), w1) →
  let name := new_name friendly (running_flag d) in
  let w' := snd (update_binding guild_id friendly ch_id w) in
  name = (if truthy (default PNone (dict_lookup "running" d))
          then "🟢 " +:+ capitalize friendly +:+ ": Online"
          else "🔴 " +:+ capitalize friendly +:+ ": Offline") ∧
  (chat_calls (trace w') = chat_calls (trace w) ∨
   chat_calls (trace w') = EditChannel ch_id name :: chat_calls (trace w)) ∧
  (get_channel w' guild_id ch_id = get_channel w guild_id ch_id ∨
   get_channel w' guild_id ch_id = Some name).
Proof.
  intros Hknown Hstats name w'. split; [reflexivity|].
  pose proof (get_stats_client_step sid w) as Hstep. rewrite Hstats in Hstep.
  simpl in Hstep. subst w'.
  rewrite update_binding_unfold, Hknown, Hstats. cbv zeta. fold name.
  rewrite <- (client_step_chat_calls _ _ Hstep), <- (client_step_get_channel _ _ _ _ Hstep).
  destruct (get_channel w1 guild_id ch_id) as [current|] eqn:Hch; [|auto].
  destruct (String.eqb current name); [auto|].
  destruct (Qlt_le_dec _ _); [auto|].
  destruct (platform w1 0%nat) eqn:Hok; simpl snd; [|auto].
  split; [right; reflexivity|]. right.
  apply (get_channel_renamed guild_id ch_id name current _ (clock_read w1)), Hch.
Qed.

(** C3. In every world the bot reaches from start-up by poll cycles (and by
    steps that rename no channel and leave the timestamps alone), any two
    accepted renames of one channel are at least the cooldown apart, by the
    clock readings taken for them.  Where a binding wants another name for
    its channel and less than the cooldown has passed since the channel's
    timestamp, the binding makes no call to the chat platform and leaves
    the name and the timestamps as they are, logging the skip; where the
    cooldown has passed and the platform accepts the call, the channel gets
    the wanted name and the reading becomes its timestamp. *)
Theorem renames_respect_cooldown (w : world) :
  reachable w →
  (∀ (pre post : list (Z * Q)) ch_id t t',
     renames (trace w) = (pre ++ (ch_id, t) :: post)%list → In (ch_id, t') post →
     (CHANNEL_COOLDOWN <= t - t')%Q) ∧
  (∀ guild_id friendly ch_id sid d w1 current,
     known_server w friendly = Some sid →
     get_stats sid w = (Ok (PDict d), w1) →
     get_channel w guild_id ch_id = Some current →
     String.eqb current (new_name friendly (running_flag d)) = false →
     let now := clock w 0%nat in
     let last := default 0%Q (channel_last_update w !! ch_id) in
     let w' := snd (update_binding guild_id friendly ch_id w) in
     ((now - last < CHANNEL_COOLDOWN)%Q →
        get_channel w' guild_id ch_id = Some current ∧
        guilds w' = guilds w ∧
        channel_last_update w' = channel_last_update w ∧
        chat_calls (trace w') = chat_calls (trace w) ∧
        renames (trace w') = renames (trace w) ∧
        head (logged (trace w')) = Some (SkippingUpdate current)) ∧
     ((CHANNEL_COOLDOWN <= now - last)%Q → platform w 0%nat = true →
        get_channel w' guild_id ch_id = Some (new_name friendly (running_flag d)) ∧
        channel_last_update w' !! ch_id = Some now ∧
        renames (trace w') = (ch_id, now) :: renames (trace w))).
Proof.
  intros Hreach. split.
  { intros pre post ch_id t t' Hsplit Hin.
    destruct (reachable_cooled w Hreach) as [Hs _]. rewrite Hsplit in Hs.
    exact (spaced_app _ _ _ _ _ Hs Hin). }
  intros guild_id friendly ch_id sid d w1 current Hknown Hstats Hch Hneq now last w'.
  pose proof (get_stats_client_step sid w) as Hstep. rewrite Hstats in Hstep.
  simpl in Hstep. subst w' now last.
  rewrite update_binding_unfold, Hknown, Hstats. cbv zeta.
  rewrite <- (client_step_chat_calls _ _ Hstep), <- (client_step_renames _ _ Hstep),
    <- (step_guilds _ _ Hstep), <- (step_channel_last_update _ _ Hstep),
    <- (step_clock _ _ Hstep), <- (step_platform _ _ Hstep).
  rewrite <- (client_step_get_channel _ _ guild_id ch_id Hstep) in Hch.
  rewrite Hch, Hneq.
  destruct (Qlt_le_dec _ _) as [Hlt|Hle]; split.
  - intros _. repeat split; auto.
  - intros Hle. exfalso. exact (Qlt_not_le _ _ Hlt Hle).
  - intros Hlt. exfalso. exact (Qlt_not_le _ _ Hlt Hle).
  - intros _ Hok. rewrite Hok. simpl snd. split; [|split].
    + apply (get_channel_renamed guild_id ch_id _ current _ (clock_read w1)), Hch.
    + simpl. apply lookup_insert_eq.
    + apply renames_renamed, Hok.
Qed.

(** * Further properties of the poll cycle *)

Lemma for_each_ok {A : Type} (l : list A) (body : A → M unit) (w : world) :
  (∀ x w, fst (body x w) = Ok tt) → fst (for_each l body w) = Ok tt.
Proof.
  intros Hbody. revert w. induction l as [|x l IH]; intros w; simpl; [reflexivity|].
  rewrite run_bind. specialize (Hbody x w).
  destruct (body x w) as [[[]|e] w1]; simpl in Hbody; [apply IH|discriminate].
Qed.

Lemma moves_for_each_in {A : Type} (R : world → world → Prop) `{!PreOrder R}
    (l : list A) (body : A → M unit) :
  (∀ x, x ∈ l → moves R (body x)) → moves R (for_each l body).
Proof.
  induction l as [|x l IH]; intros Hb; simpl.
  - apply moves_ret; assumption.
  - apply moves_bind; [assumption|apply Hb; left|intros _].
    apply IH. intros y Hy. apply Hb. right. exact Hy.
Qed.

Lemma update_binding_ok (guild_id : Z) (friendly : string) (ch_id : Z) (w : world) :
  fst (update_binding guild_id friendly ch_id w) = Ok tt.
Proof.
  rewrite update_binding_unfold.
  destruct (known_server w friendly); [|reflexivity].
  destruct (get_stats _ w) as [[data|e] w1]; [|reflexivity].
  destruct data; try reflexivity. cbv zeta.
  destruct (get_channel w1 guild_id ch_id); [|reflexivity].
  destruct (String.eqb _ _); [reflexivity|].
  destruct (Qlt_le_dec _ _); [reflexivity|].
  destruct (platform w1 0%nat); reflexivity.
Qed.

(** what a refresh of the server map leaves alone *)
Lemma refresh_server_map_frame (w : world) :
  let w' := snd (refresh_server_map w) in
  chat_calls (trace w') = chat_calls (trace w) ∧
  renames (trace w') = renames (trace w) ∧
  channel_map w' = channel_map w ∧
  channel_last_update w' = channel_last_update w ∧
  guilds w' = guilds w ∧
  _cfg w' = _cfg w ∧
  SERVERS_CFG w' = SERVERS_CFG w.
Proof.
  cbv zeta. rewrite refresh_server_map_unfold.
  pose proof (get_servers_client_step w) as Hstep.
  destruct (get_servers w) as [[servers|e] w1]; simpl in Hstep.
  - destruct (fst _); simpl;
      (repeat split;
       [apply client_step_chat_calls, Hstep|apply client_step_renames, Hstep
       |apply (step_channel_map _ _ Hstep)|apply (step_channel_last_update _ _ Hstep)
       |apply (step_guilds _ _ Hstep)|apply (step_cfg _ _ Hstep)
       |apply (step_SERVERS_CFG _ _ Hstep)]).
  - simpl. repeat split;
      [apply client_step_chat_calls, Hstep|apply client_step_renames, Hstep
      |apply (step_channel_map _ _ Hstep)|apply (step_channel_last_update _ _ Hstep)
      |apply (step_guilds _ _ Hstep)|apply (step_cfg _ _ Hstep)
      |apply (step_SERVERS_CFG _ _ Hstep)].
Qed.

(** When the refresh of the server map raises, the poll cycle raises the
    same exception there and then: it has done what the refresh did and
    nothing else, no stats request and no call to the chat platform.  The
    body run for one binding never raises, whatever the remote or the chat
    platform answers. *)
Theorem refresh_failure_aborts_the_cycle (w : world) :
  (∀ e, fst (refresh_server_map w) = Raise e → update_task w = refresh_server_map w) ∧
  ∀ guild_id friendly ch_id w0, fst (update_binding guild_id friendly ch_id w0) = Ok tt.
Proof.
  split; [|intros; apply update_binding_ok].
  intros e He. unfold update_task. rewrite run_bind.
  destruct (refresh_server_map w) as [[[]|e'] w0]; [discriminate|reflexivity].
Qed.

#[global] Instance only_calls_preorder (P : chat_call → Prop) : PreOrder (only_calls P).
Proof.
  split.
  - intros w. exists []. split; [reflexivity|constructor].
  - intros w1 w2 w3 (n12 & H12 & P12) (n23 & H23 & P23).
    exists (n23 ++ n12)%list. split; [|apply Forall_app; split; assumption].
    rewrite H23, H12. apply app_assoc.
Qed.

Lemma quiet_only_calls (P : chat_call → Prop) (w w' : world) :
  chat_calls (trace w') = chat_calls (trace w) → only_calls P w w'.
Proof. intros Hq. exists []. split; [exact Hq|constructor]. Qed.

Lemma only_calls_impl (P Q : chat_call → Prop) (w w' : world) :
  (∀ c, P c → Q c) → only_calls P w w' → only_calls Q w w'.
Proof.
  intros HPQ (new & Hnew & HP). exists new. split; [exact Hnew|].
  eapply Forall_impl; eassumption.
Qed.

(** a binding calls the chat platform at most to rename its own channel *)
Lemma update_binding_only_calls (guild_id : Z) (friendly : string) (ch_id : Z) :
  moves (only_calls (λ c, ∃ running, c = EditChannel ch_id (new_name friendly running)))
    (update_binding guild_id friendly ch_id).
Proof.
  intros w. rewrite update_binding_unfold.
  destruct (known_server w friendly) as [sid|]; [|reflexivity].
  pose proof (get_stats_client_step sid w) as Hstep.
  destruct (get_stats sid w) as [[data|e] w1]; simpl in Hstep;
    apply client_step_chat_calls in Hstep;
    (etrans; [apply quiet_only_calls; exact Hstep|]);
    [|apply quiet_only_calls; reflexivity].
  destruct data; try (apply quiet_only_calls; reflexivity). cbv zeta.
  destruct (get_channel w1 guild_id ch_id) as [current|]; [|reflexivity].
  destruct (String.eqb current _); [reflexivity|].
  destruct (Qlt_le_dec _ _); [apply quiet_only_calls; reflexivity|].
  destruct (platform w1 0%nat); simpl;
    (eexists [_]; split; [reflexivity|]; repeat constructor; eexists; reflexivity).
Qed.

(** Every call the poll cycle makes to the chat platform renames a channel
    that [channel_map] binds to a friendly name, to the Online or the
    Offline name of that friendly name: the cycle sends no message, and
    touches no channel outside the map. *)
Theorem update_task_renames_bound_channels_only (w : world) :
  only_calls
    (λ c, ∃ guild_id per_guild_map friendly ch_id running,
            (guild_id, per_guild_map) ∈ channel_map w ∧
            (friendly, ch_id) ∈ per_guild_map ∧
            c = EditChannel ch_id (new_name friendly running))
    w (snd (update_task w)).
Proof.
  unfold update_task. rewrite run_bind.
  destruct (refresh_server_map_frame w) as (Hcalls & _ & Hmap & _).
  destruct (refresh_server_map w) as [[[]|e] w0]; simpl in Hcalls, Hmap;
    [|apply quiet_only_calls; exact Hcalls].
  etrans; [apply quiet_only_calls; exact Hcalls|].
  rewrite run_bind. unfold ask at 1. rewrite Hmap.
  apply moves_for_each_in; [typeclasses eauto|].
  intros [guild_id per_guild_map] Hg w1.
  rewrite run_bind. unfold ask at 1.
  destruct (guilds w1 !! guild_id); [|apply quiet_only_calls; reflexivity].
  apply moves_for_each_in; [typeclasses eauto|].
  intros [friendly ch_id] Hb w2.
  eapply only_calls_impl; [|apply update_binding_only_calls].
  intros c [running ->]. eauto 10.
Qed.

(** ** The timestamps of the renames *)

#[global] Instance keeps_current_preorder : PreOrder keeps_current.
Proof. split; [intros w Hw; exact Hw|intros w1 w2 w3 H12 H23 Hw; auto]. Qed.

Lemma quiet_keeps_current (w w' : world) :
  renames (trace w') = renames (trace w) →
  channel_last_update w' = channel_last_update w →
  keeps_current w w'.
Proof. intros Hr Hc Hw ch_id. rewrite Hr, Hc. apply Hw. Qed.

Lemma renamed_keeps_current (guild_id ch_id : Z) (name : string) (w : world) :
  platform w 0%nat = true →
  keeps_current w (renamed guild_id ch_id name (clock w 0%nat) (clock_read w)).
Proof.
  intros Hok Hw c. rewrite renames_renamed by exact Hok. simpl.
  destruct (ch_id =? c) eqn:Heq.
  - apply Z.eqb_eq in Heq as ->. apply lookup_insert_eq.
  - apply Z.eqb_neq in Heq. rewrite lookup_insert_ne by exact Heq. apply Hw.
Qed.

Lemma update_binding_keeps_current (guild_id : Z) (friendly : string) (ch_id : Z) :
  moves keeps_current (update_binding guild_id friendly ch_id).
Proof.
  intros w. rewrite update_binding_unfold.
  destruct (known_server w friendly) as [sid|]; [|reflexivity].
  pose proof (get_stats_client_step sid w) as Hstep.
  assert (keeps_current w (snd (get_stats sid w))) as Hquiet
    by (apply quiet_keeps_current;
        [apply client_step_renames, Hstep|apply (step_channel_last_update _ _ Hstep)]).
  destruct (get_stats sid w) as [[data|e] w1]; simpl in Hquiet;
    (etrans; [exact Hquiet|]); [|apply quiet_keeps_current; reflexivity].
  destruct data; try (apply quiet_keeps_current; reflexivity). cbv zeta.
  destruct (get_channel w1 guild_id ch_id) as [current|]; [|reflexivity].
  destruct (String.eqb current _); [reflexivity|].
  destruct (Qlt_le_dec _ _); [apply quiet_keeps_current; reflexivity|].
  destruct (platform w1 0%nat) eqn:Hok;
    [|apply quiet_keeps_current; simpl; rewrite ?Hok; reflexivity].
  apply renamed_keeps_current, Hok.
Qed.

Lemma update_task_keeps_current : moves keeps_current update_task.
Proof.
  unfold update_task.
  apply moves_bind; [typeclasses eauto| |intros _].
  { intros w. destruct (refresh_server_map_frame w) as (_ & Hr & _ & Hc & _).
    apply quiet_keeps_current; assumption. }
  apply moves_bind; [typeclasses eauto|apply moves_ask; typeclasses eauto|intros w0].
  apply moves_for_each; [typeclasses eauto|intros [guild_id per_guild_map]].
  apply moves_bind; [typeclasses eauto|apply moves_ask; typeclasses eauto|intros w1].
  destruct (guilds w1 !! guild_id).
  - apply moves_for_each; [typeclasses eauto|intros [friendly ch_id]].
    apply update_binding_keeps_current.
  - intros w2. apply quiet_keeps_current; reflexivity.
Qed.

(** In every world the bot reaches, the timestamp kept for a channel is the
    clock reading of the latest accepted rename of that channel, and a
    channel never renamed has none. *)
Theorem timestamps_are_last_renames (w : world) :
  reachable w →
  ∀ ch_id, channel_last_update w !! ch_id = last_rename ch_id (renames (trace w)).
Proof.
  induction 1 as [w Hr Hc|w _ IH|w w' _ IH Hr Hc].
  - intros ch_id. rewrite Hr, Hc. apply lookup_empty.
  - exact (update_task_keeps_current w IH).
  - exact (quiet_keeps_current w w' Hr Hc IH).
Qed.

(** Where the cooldown has passed but the chat platform rejects the rename,
    the binding logs the failure and returns: the channel keeps its name and
    no timestamp is recorded, so the cooldown does not start and the next
    poll tries again. *)
Theorem rejected_rename_records_no_timestamp
    (w w1 : world) (guild_id ch_id : Z) (friendly sid current : string)
    (d : list (string * pyval)) :
  known_server w friendly = Some sid →
  get_stats sid w = (Ok (PDict d), w1) →
  get_channel w guild_id ch_id = Some current →
  String.eqb current (new_name friendly (running_flag d)) = false →
  (CHANNEL_COOLDOWN <= clock w 0%nat - default 0%Q (channel_last_update w !! ch_id))%Q →
  platform w 0%nat = false →
  let w' := snd (update_binding guild_id friendly ch_id w) in
  fst (update_binding guild_id friendly ch_id w) = Ok tt ∧
  guilds w' = guilds w ∧
  channel_last_update w' = channel_last_update w ∧
  renames (trace w') = renames (trace w) ∧
  chat_calls (trace w') =
    EditChannel ch_id (new_name friendly (running_flag d)) :: chat_calls (trace w) ∧
  head (logged (trace w')) = Some (FailedToUpdate friendly DiscordException).
Proof.
  intros Hknown Hstats Hch Hneq Hgap Hno w'. subst w'.
  pose proof (get_stats_client_step sid w) as Hstep. rewrite Hstats in Hstep.
  simpl in Hstep.
  rewrite update_binding_unfold, Hknown, Hstats. cbv zeta.
  rewrite <- (client_step_chat_calls _ _ Hstep), <- (client_step_renames _ _ Hstep),
    <- (step_guilds _ _ Hstep), <- (step_channel_last_update _ _ Hstep).
  rewrite <- (step_clock _ _ Hstep), <- (step_channel_last_update _ _ Hstep) in Hgap.
  rewrite <- (step_platform _ _ Hstep) in Hno.
  rewrite <- (client_step_get_channel _ _ guild_id ch_id Hstep) in Hch.
  rewrite Hch, Hneq.
  destruct (Qlt_le_dec _ _) as [Hlt|_]; [exfalso; exact (Qlt_not_le _ _ Hlt Hgap)|].
  rewrite Hno. simpl. rewrite Hno. repeat split; reflexivity.
Qed.

(** * Further properties of the API client *)

(** When the connection fails or the request times out, [_request] logs one
    warning and raises the same exception again: one exchange was tried,
    there is neither a re-login nor a retry, and the stored token stays. *)
Theorem transport_failure_is_logged_and_reraised
    (w : world) (method path : string) (retry : bool) :
  let rq := Request method (base (crafty w) +:+ path) (auth_header w) in
  (remote w 0%nat = ConnectionFailed →
   _request method path retry w =
     (Raise ClientConnectionError, record (Log NotReachable) (answered rq w))) ∧
  (remote w 0%nat = TimedOut →
   _request method path retry w =
     (Raise TimeoutError, record (Log RequestTimedOut) (answered rq w))).
Proof.
  cbv zeta. unfold _request, _request_body, answered, auth_header. run.
  split; intros Hr; rewrite Hr; reflexivity.
Qed.

(** After a 401 and a re-login that succeeds, a connection failure of the
    retry is logged twice, once by the retried call and once by the call
    that retried, before it reaches the caller.  A connection failure of the
    re-login itself is logged once, by [_request]. *)
Theorem retry_transport_failure_is_logged_twice
    (w : world) (method path : string) (r0 : response) :
  truthy (bearer_token (crafty w)) = false →
  remote w 0%nat = Responded r0 →
  r_status r0 = 401 →
  let url := base (crafty w) +:+ path in
  let w1 := answered (Request method url (auth_header w)) w in
  (∀ token w2,
     login w1 = (Ok token, w2) →
     remote w2 0%nat = ConnectionFailed →
     _request method path true w =
       (Raise ClientConnectionError,
        record (Log NotReachable)
          (record (Log NotReachable)
             (answered (Request method url (Some ("Bearer " +:+ py_str token))) w2)))) ∧
  (∀ w2,
     login w1 = (Raise ClientConnectionError, w2) →
     _request method path true w =
       (Raise ClientConnectionError, record (Log NotReachable) w2)).
Proof.
  intros Hb Hr H401 url w1.
  rewrite (request_after_401 w method path r0 Hb Hr H401). fold url w1.
  assert (Hb1 : truthy (bearer_token (crafty w1)) = false) by exact Hb.
  destruct (login_once w1 Hb1) as (_ & _ & Hc & _ & Htok).
  split.
  - intros token w2 Hlogin Hr2. rewrite Hlogin in Hc, Htok. simpl in Hc, Htok.
    destruct (Htok token eq_refl) as [Ht Htr].
    unfold reraise_transport at 1. unfold try_except. rewrite run_bind, Hlogin.
    unfold _request_body, answered. run. rewrite Hr2, Hc, Ht, Htr. reflexivity.
  - intros w2 Hlogin.
    unfold reraise_transport at 1. unfold try_except. rewrite run_bind, Hlogin.
    reflexivity.
Qed.

(** A response other than a 401, or any response to a call that may not
    retry, ends the call at once: one exchange, no re-login, the stored
    token unchanged.  A status from 400 up is raised as the error that
    carries the status and the body; below 400 the decoded body is
    returned. *)
Theorem only_a_401_is_retried
    (w : world) (method path : string) (retry : bool) (r : response) :
  remote w 0%nat = Responded r →
  r_status r ≠ 401 ∨ retry = false →
  let w' := snd (_request method path retry w) in
  http_requests (trace w') =
    Request method (base (crafty w) +:+ path) (auth_header w) :: http_requests (trace w) ∧
  logins (trace w') = logins (trace w) ∧
  _token w' = _token w ∧
  fst (_request method path retry w) =
    if 400 <=? r_status r
    then Raise (RuntimeError ("HTTP " +:+ pretty (r_status r) +:+ ": " +:+ r_text r))
    else match r_json r with Some js => Ok js | None => Raise ContentTypeError end.
Proof.
  intros Hr Hcase. cbv zeta.
  assert (Hsame : _request method path retry w = _request_body method path None w).
  { unfold _request. destruct retry; [|reflexivity].
    destruct Hcase as [Hne|]; [|discriminate]. apply Z.eqb_neq in Hne.
    unfold _request_body. run. rewrite Hr. simpl. rewrite Hne. reflexivity. }
  rewrite Hsame. destruct (request_once w method path) as (Hh & Hl & Hres).
  rewrite Hh, Hl, Hres, Hr. repeat split.
  unfold _request_body. run. rewrite Hr. simpl.
  destruct (_ && _); destruct (400 <=? r_status r); simpl; try reflexivity;
    destruct (r_json r); reflexivity.
Qed.

(** [login] stores a token only when it returns one, and what it returns is
    truthy; when it raises, the stored token is the one from before and
    nothing is logged. *)
Theorem login_stores_token_only_on_success (w : world) :
  (∀ e, fst (login w) = Raise e →
        _token (snd (login w)) = _token w ∧
        logged (trace (snd (login w))) = logged (trace w)) ∧
  (∀ token, fst (login w) = Ok token →
        _token (snd (login w)) = token ∧ truthy token = true).
Proof.
  unfold login. run.
  destruct (truthy (bearer_token (crafty w))) eqn:Hb; simpl.
  { split; [discriminate|]. intros token [= <-]. auto. }
  destruct (remote w 0%nat) as [r| |] eqn:Hr; simpl; rewrite ?Hr;
    try (split; [auto|discriminate]).
  destruct (400 <=? r_status r); simpl; rewrite ?Hr;
    try (split; [auto|discriminate]).
  destruct (r_json r) as [js|]; simpl; rewrite ?Hr;
    try (split; [auto|discriminate]).
  destruct js; simpl; rewrite ?Hr; try (split; [auto|discriminate]).
  destruct (default (PDict []) (dict_lookup "data" d)) as [| | | | |d'] eqn:Hd;
    simpl; rewrite ?Hr; try (split; [auto|discriminate]).
  destruct (truthy (default PNone (dict_lookup "token" d'))) eqn:Ht1; simpl.
  { rewrite Ht1; simpl; rewrite ?Hr. split; [discriminate|]. intros t [= <-]. auto. }
  destruct (truthy (default PNone (dict_lookup "token" d))) eqn:Ht2; simpl.
  { rewrite Ht2; simpl; rewrite ?Hr. split; [discriminate|]. intros t [= <-]. auto. }
  destruct (truthy (default PNone (dict_lookup "data" d))) eqn:Ht3; simpl; rewrite ?Hr.
  { split; [discriminate|]. intros t [= <-]. auto. }
  split; [auto|discriminate].
Qed.

(** Where the credential exchange is answered below 400 with a JSON object
    whose [data] is an object or is absent, [login] takes the first truthy
    value among the nested [data.token], the top-level [token] and [data]
    itself, stores it and returns it; the nested token wins over the
    top-level one.  A non-empty [data] object without any token is thus
    itself stored as the token.  With nothing truthy, [login] raises the
    error that quotes the body, and the stored token stays. *)
Theorem login_takes_first_token_found
    (w : world) (r : response) (d dd : list (string * pyval)) :
  truthy (bearer_token (crafty w)) = false →
  remote w 0%nat = Responded r →
  r_status r < 400 →
  r_json r = Some (PDict d) →
  default (PDict []) (dict_lookup "data" d) = PDict dd →
  let nested := default PNone (dict_lookup "token" dd) in
  let top := default PNone (dict_lookup "token" d) in
  let token :=
    if truthy nested then nested
    else if truthy top then top else default PNone (dict_lookup "data" d) in
  (if truthy token
   then fst (login w) = Ok token ∧ _token (snd (login w)) = token
   else fst (login w) =
          Raise (RuntimeError ("No token found in login response: " +:+ py_str (PDict d))) ∧
        _token (snd (login w)) = _token w) ∧
  (truthy nested = false → truthy top = false → dd ≠ [] →
   fst (login w) = Ok (PDict dd)).
Proof.
  intros Hb Hr Hstatus Hjs Hdata nested top token.
  assert (H400 : (400 <=? r_status r) = false) by (apply Z.leb_gt; exact Hstatus).
  assert (Hlogin : login w =
            if truthy token
            then (Ok token, record (Log LoggedIn)
                              (set_token token (answered (login_post w) w)))
            else (Raise (RuntimeError
                           ("No token found in login response: " +:+ py_str (PDict d))),
                  answered (login_post w) w)).
  { subst token nested top. unfold login, login_post, answered. run.
    rewrite Hb, Hr. simpl. rewrite H400, Hjs. simpl. rewrite Hdata. simpl.
    destruct (truthy (default PNone (dict_lookup "token" dd))) eqn:Ht1; simpl.
    { rewrite Ht1. reflexivity. }
    destruct (truthy (default PNone (dict_lookup "token" d))) eqn:Ht2; simpl.
    { rewrite Ht2. reflexivity. }
    destruct (truthy (default PNone (dict_lookup "data" d))); reflexivity. }
  split.
  - rewrite Hlogin. destruct (truthy token); split; reflexivity.
  - intros Ht1 Ht2 Hdd. rewrite Hlogin. subst token. rewrite Ht1, Ht2.
    destruct (dict_lookup "data" d) as [x|]; simpl in *.
    + subst x. destruct dd; [contradiction|reflexivity].
    + injection Hdata as <-. contradiction.
Qed.

(** * Further properties of the server map *)

(** When [refresh_server_map] returns, the map it has published has exactly
    the configured friendly names as keys, so names dropped from the
    configuration are dropped from the map; and a friendly name is mapped to
    the empty identifier, which the commands and the poll cycle treat as
    unknown, only if its configured remote name is empty. *)
Theorem refresh_publishes_configured_names (w w' : world) :
  refresh_server_map w = (Ok tt, w') →
  dom (server_map w') = dom (SERVERS_CFG w) ∧
  ∀ friendly craft_name,
    SERVERS_CFG w !! friendly = Some craft_name →
    craft_name ≠ "" →
    ∃ sid, known_server w' friendly = Some sid.
Proof.
  intros Hrefresh.
  pose proof (get_servers_client_step w) as Hstep.
  rewrite refresh_server_map_unfold in Hrefresh.
  destruct (get_servers w) as [[servers|e] w1]; [|discriminate]. simpl in Hstep.
  destruct (fst _) as [ids|e]; [|discriminate].
  injection Hrefresh as <-. simpl server_map.
  rewrite (step_SERVERS_CFG _ _ Hstep). split; [apply dom_fmap_L|].
  intros friendly craft_name Hcfg Hne. unfold known_server. simpl server_map.
  rewrite lookup_fmap, Hcfg. simpl.
  assert (resolve ids craft_name ≠ "") as Hsid.
  { unfold resolve. destruct (id_by_name_get craft_name ids) as [sid|]; simpl; [|exact Hne].
    destruct (String.eqb sid "") eqn:Heq; [exact Hne|]. apply String.eqb_neq, Heq. }
  apply String.eqb_neq in Hsid. rewrite Hsid. eauto.
Qed.

(** * Further properties of the slash commands *)

Lemma extends_http_requests (tr tr' : list event) :
  extends client_event tr tr' →
  ∃ more, http_requests tr' = (more ++ http_requests tr)%list.
Proof.
  induction 1 as [|e tr' He _ [more IH]]; [exists []; reflexivity|].
  destruct e; simpl in *; try contradiction; [|exists more; exact IH].
  exists (rq :: more). rewrite IH. reflexivity.
Qed.

(** the first exchange of a request goes to its URL, under the stored token *)
Lemma request_first (w : world) (method path : string) (retry : bool) :
  ∃ more,
    http_requests (trace (snd (_request method path retry w))) =
      (more ++ Request method (base (crafty w) +:+ path) (auth_header w)
            :: http_requests (trace w))%list.
Proof.
  set (rq := Request method (base (crafty w) +:+ path) (auth_header w)).
  assert (Hkeep : ∀ m : M pyval, moves client_step m →
            ∃ more, http_requests (trace (snd (reraise_transport m (answered rq w)))) =
                      (more ++ rq :: http_requests (trace w))%list).
  { intros m Hm.
    destruct (reraise_transport_spec m (answered rq w)) as (_ & -> & _).
    destruct (extends_http_requests _ _ (step_trace _ _ (Hm (answered rq w))))
      as [more Hmore].
    exists more. exact Hmore. }
  destruct (remote w 0%nat) as [r| |] eqn:Hr.
  - destruct ((r_status r =? 401) && negb (truthy (bearer_token (crafty w))) && retry)
      eqn:Hcase.
    + apply andb_prop in Hcase as [Hcase ->]. apply andb_prop in Hcase as [H401 Hb].
      apply Z.eqb_eq in H401. apply negb_true_iff in Hb.
      rewrite (request_after_401 w method path r Hb Hr H401). apply Hkeep.
      apply moves_bind; [typeclasses eauto|apply login_client_step|intros _].
      apply _request_body_client_step. discriminate.
    + assert (Hsame : _request method path retry w = _request_body method path None w).
      { unfold _request, _request_body. run. rewrite Hr. simpl.
        destruct (r_status r =? 401); [|reflexivity].
        destruct (truthy (bearer_token (crafty w))); [reflexivity|].
        destruct retry; [discriminate|reflexivity]. }
      rewrite Hsame. destruct (request_once w method path) as (Hh & _).
      exists []. exact Hh.
  - exists []. unfold _request, _request_body, rq, auth_header. run. rewrite Hr. reflexivity.
  - exists []. unfold _request, _request_body, rq, auth_header. run. rewrite Hr. reflexivity.
Qed.

Lemma chat_message_calls (content : string) (ephemeral : bool) (w : world) :
  let w' := snd (chat (SendMessage content ephemeral) w) in
  chat_calls (trace w') = SendMessage content ephemeral :: chat_calls (trace w) ∧
  http_requests (trace w') = http_requests (trace w) ∧
  renames (trace w') = renames (trace w) ∧
  channel_last_update w' = channel_last_update w.
Proof. unfold chat. destruct (platform w 0%nat); repeat split. Qed.

(** For an authorized caller and a server name that the server map does not
    hold, or holds with an empty identifier, each of [start], [stop],
    [restart] and [status] is one ephemeral message naming the server as
    unknown, and nothing is exchanged with the remote. *)
Theorem unknown_server_is_reported (w : world) (caller : interaction) (server : string) :
  is_authorized (_cfg w) caller = true →
  known_server w server = None →
  let reply := chat (SendMessage ("❌ Unknown server " +:+ server) true) in
  start caller server w = reply w ∧
  stop caller server w = reply w ∧
  restart caller server w = reply w ∧
  status caller server w = reply w ∧
  http_requests (trace (snd (reply w))) = http_requests (trace w) ∧
  chat_calls (trace (snd (reply w))) =
    SendMessage ("❌ Unknown server " +:+ server) true :: chat_calls (trace w).
Proof.
  intros Hyes Hunknown reply. subst reply.
  unfold start, stop, restart, status. run. rewrite Hyes, Hunknown. simpl.
  destruct (chat_message_calls ("❌ Unknown server " +:+ server) true w) as (Hc & Hh & _).
  repeat split; assumption.
Qed.

(** For an authorized caller and a known server, [start], [stop] and
    [restart] first post the action for the mapped identifier, and confirm
    in public only once the remote has accepted it.  When the remote call
    raises, the command raises the same exception and the caller is sent
    nothing. *)
Theorem action_commands_confirm_after_the_remote
    (w : world) (caller : interaction) (server sid : string) :
  is_authorized (_cfg w) caller = true →
  known_server w server = Some sid →
  let outcome_of (cmd : interaction → string → M unit) (action confirmation : string) :=
    let path := "/api/v2/servers/" +:+ sid +:+ "/action/" +:+ action in
    let w' := snd (cmd caller server w) in
    (∃ more, http_requests (trace w') =
               (more ++ Request "POST" (base (crafty w) +:+ path) (auth_header w)
                     :: http_requests (trace w))%list) ∧
    match action_server sid action w with
    | (Raise e, w1) =>
        cmd caller server w = (Raise e, w1) ∧
        chat_calls (trace w') = chat_calls (trace w)
    | (Ok _, w1) =>
        cmd caller server w = chat (SendMessage (confirmation +:+ server) false) w1 ∧
        chat_calls (trace w') =
          SendMessage (confirmation +:+ server) false :: chat_calls (trace w)
    end in
  outcome_of start "start_server" "✅ Starting " ∧
  outcome_of stop "stop_server" "🛑 Stopping " ∧
  outcome_of restart "restart_server" "🔁 Restarting ".
Proof.
  intros Hyes Hknown outcome_of.
  assert (Hall : ∀ (cmd : interaction → string → M unit) action confirmation,
            cmd caller server w =
              (action_server sid action;;
               chat (SendMessage (confirmation +:+ server) false)) w →
            outcome_of cmd action confirmation).
  { intros cmd action confirmation Hcmd. subst outcome_of. cbv zeta beta.
    rewrite Hcmd, run_bind.
    pose proof (action_server_client_step sid action w) as Hstep.
    destruct (request_first w "POST"
                ("/api/v2/servers/" +:+ sid +:+ "/action/" +:+ action) true)
      as [more Hmore].
    fold (action_server sid action) in Hmore.
    destruct (action_server sid action w) as [[js|e] w1]; simpl in Hstep, Hmore.
    - destruct (chat_message_calls (confirmation +:+ server) false w1) as (Hc & Hh & _).
      rewrite Hh, Hc, (client_step_chat_calls _ _ Hstep). eauto.
    - simpl. rewrite (client_step_chat_calls _ _ Hstep). eauto. }
  split; [|split]; apply Hall.
  - unfold start. run. rewrite Hyes, Hknown. reflexivity.
  - unfold stop. run. rewrite Hyes, Hknown. reflexivity.
  - unfold restart. run. rewrite Hyes, Hknown. reflexivity.
Qed.

(** For an authorized caller and a known server, [status] reports the
    [running], [online] and [max] fields of the server's public data as
    Python prints them, a missing field as [None], in one public message.
    When the public data is not an object, [status] raises [AttributeError],
    and when the remote call raises, the same exception: in both cases the
    caller is sent nothing. *)
Theorem status_reports_public_fields
    (w : world) (caller : interaction) (server sid : string) :
  is_authorized (_cfg w) caller = true →
  known_server w server = Some sid →
  match get_public sid w with
  | (Ok (PDict d), w1) =>
      let field k := py_str (default PNone (dict_lookup k d)) in
      status caller server w =
        chat (SendMessage ("📊 " +:+ server +:+ " — running: " +:+ field "running"
                           +:+ ", players: " +:+ field "online" +:+ "/" +:+ field "max")
                false) w1
  | (Ok _, w1) =>
      status caller server w = (Raise AttributeError, w1) ∧
      chat_calls (trace w1) = chat_calls (trace w)
  | (Raise e, w1) =>
      status caller server w = (Raise e, w1) ∧
      chat_calls (trace w1) = chat_calls (trace w)
  end.
Proof.
  intros Hyes Hknown.
  pose proof (get_public_client_step sid w) as Hstep.
  assert (Hstatus : status caller server w =
            (data ← get_public sid;
             running ← py_get data "running" PNone;
             online ← py_get data "online" PNone;
             max ← py_get data "max" PNone;
             chat (SendMessage ("📊 " +:+ server +:+ " — running: " +:+ py_str running
                                +:+ ", players: " +:+ py_str online +:+ "/" +:+ py_str max)
                     false)) w).
  { unfold status. run. rewrite Hyes, Hknown. reflexivity. }
  rewrite Hstatus, run_bind.
  destruct (get_public sid w) as [[data|e] w1]; simpl in Hstep;
    [|split; [reflexivity|apply client_step_chat_calls, Hstep]].
  destruct data; try (split; [reflexivity|apply client_step_chat_calls, Hstep]).
  reflexivity.
Qed.

(** When an authorized caller reloads the configuration and the refresh of
    the server map then raises, [reload_config] raises the same exception
    with the new configuration already in place: the globals read from it
    are replaced, the server map is still the old one, no channel setup has
    run and the caller is sent nothing. *)
Theorem reload_failure_leaves_new_config
    (w w1 w2 : world) (caller : interaction) (cfg : config) (e : exn) :
  is_authorized (_cfg w) caller = true →
  load_config w = (Ok cfg, w1) →
  refresh_server_map (set_config cfg w1) = (Raise e, w2) →
  reload_config caller w = (Raise e, w2) ∧
  _cfg w2 = cfg ∧
  SERVERS_CFG w2 = servers cfg ∧
  CATEGORY_NAME w2 = cfg_category_name cfg ∧
  update_interval w2 = cfg_update_interval cfg ∧
  server_map w2 = server_map w1 ∧
  chat_calls (trace w2) = chat_calls (trace w1).
Proof.
  intros Hyes Hload Hrefresh.
  split.
  { unfold reload_config. rewrite run_bind. unfold ask at 1. rewrite Hyes.
    change (negb true) with false. cbv iota. rewrite run_bind, Hload, run_bind. unfold modify at 1.
    rewrite run_bind, Hrefresh. reflexivity. }
  rewrite refresh_server_map_unfold in Hrefresh.
  pose proof (get_servers_client_step (set_config cfg w1)) as Hstep.
  destruct (get_servers (set_config cfg w1)) as [[servers|e'] w3]; simpl in Hstep.
  - destruct (fst _); [discriminate|]. injection Hrefresh as _ <-.
    repeat split;
      [apply (step_cfg _ _ Hstep)|apply (step_SERVERS_CFG _ _ Hstep)
      |apply (step_CATEGORY_NAME _ _ Hstep)|apply (step_update_interval _ _ Hstep)
      |apply (step_server_map _ _ Hstep)|apply (client_step_chat_calls _ _ Hstep)].
  - injection Hrefresh as _ <-.
    repeat split;
      [apply (step_cfg _ _ Hstep)|apply (step_SERVERS_CFG _ _ Hstep)
      |apply (step_CATEGORY_NAME _ _ Hstep)|apply (step_update_interval _ _ Hstep)
      |apply (step_server_map _ _ Hstep)|apply (client_step_chat_calls _ _ Hstep)].
Qed.

#[global] Instance cooldown_frame_preorder : PreOrder cooldown_frame.
Proof.
  split; [intros w; split; reflexivity|].
  intros w1 w2 w3 [Hr12 Hc12] [Hr23 Hc23]. split; congruence.
Qed.

Lemma client_step_cooldown_frame (w w' : world) : client_step w w' → cooldown_frame w w'.
Proof.
  intros Hstep. split;
    [apply client_step_renames, Hstep|apply (step_channel_last_update _ _ Hstep)].
Qed.

Lemma chat_message_cooldown_frame (content : string) (ephemeral : bool) :
  moves cooldown_frame (chat (SendMessage content ephemeral)).
Proof.
  intros w. destruct (chat_message_calls content ephemeral w) as (_ & _ & Hr & Hc).
  split; assumption.
Qed.

(** The commands [start], [stop], [restart] and [status] rename no channel
    and leave the timestamps of the renames alone, whoever calls them and
    whatever the remote answers; so the worlds the bot reaches stay reached
    under them, and the cooldown holds across them. *)
Theorem commands_leave_renames_alone
    (w : world) (caller : interaction) (server : string) (cmd : interaction → string → M unit) :
  cmd = start ∨ cmd = stop ∨ cmd = restart ∨ cmd = status →
  let w' := snd (cmd caller server w) in
  renames (trace w') = renames (trace w) ∧
  channel_last_update w' = channel_last_update w ∧
  (reachable w → reachable w').
Proof.
  intros Hcmd w'.
  assert (Hclient : ∀ (A : Type) (m : M A), moves client_step m → moves cooldown_frame m)
    by (intros A m Hm w0; apply client_step_cooldown_frame, Hm).
  assert (Hmoves : moves cooldown_frame (cmd caller server)).
  { destruct Hcmd as [Hcmd | [Hcmd | [Hcmd | Hcmd]]]; subst cmd;
      [unfold start|unfold stop|unfold restart|unfold status];
      repeat first
        [ apply chat_message_cooldown_frame
        | apply Hclient, action_server_client_step
        | apply Hclient, get_public_client_step
        | apply Hclient, py_get_client_step
        | apply moves_ask; typeclasses eauto
        | apply moves_bind; [typeclasses eauto| |intros ?]
        | match goal with
          | |- moves _ (match ?x with _ => _ end) => destruct x
          end ]. }
  destruct (Hmoves w) as [Hr Hc]. fold w' in Hr, Hc.
  split; [exact Hr|]. split; [exact Hc|].
  intros Hreach. exact (reach_other w w' Hreach Hr Hc).
Qed.

(** * Start-up *)

Lemma dict_lookup_app (k : string) (d d' : list (string * pyval)) :
  dict_lookup k (d ++ d') =
    match dict_lookup k d with
    | Some v => Some v
    | None => dict_lookup k d'
    end.
Proof.
  induction d as [|[k' v] d IH]; simpl; [reflexivity|].
  destruct (String.eqb k k'); [reflexivity|exact IH].
Qed.

Lemma dict_lookup_setdefault (k k' : string) (v : pyval) (d : list (string * pyval)) :
  dict_lookup k' (setdefault k v d) =
    match dict_lookup k' d with
    | Some x => Some x
    | None => if String.eqb k' k then Some v else None
    end.
Proof.
  unfold setdefault. destruct (dict_lookup k d) as [x|] eqn:Hk.
  - destruct (dict_lookup k' d) eqn:Hk'; [reflexivity|].
    destruct (String.eqb k' k) eqn:Heq; [|reflexivity].
    apply String.eqb_eq in Heq as ->. congruence.
  - rewrite dict_lookup_app. simpl. destruct (dict_lookup k' d); reflexivity.
Qed.

Lemma setdefault_present (k : string) (v : pyval) (d : list (string * pyval)) :
  is_Some (dict_lookup k d) → setdefault k v d = d.
Proof. unfold setdefault. intros [x ->]. reflexivity. Qed.

(** [load_config] fills in the five optional keys and nothing else: a key
    the file sets keeps its value, also a value of [None]; a key it does not
    set gets its default if it is one of the five and stays absent
    otherwise.  Loading what was loaded changes nothing.  A file that does
    not hold a mapping (an empty file, a list) makes [load_config] raise
    [AttributeError]. *)
Theorem load_config_fills_missing_keys_only (parsed : pyval) :
  match parsed with
  | PDict cfg =>
      ∃ cfg', load_config_parsed parsed = Ok (PDict cfg') ∧
        (∀ k, dict_lookup k cfg' =
                match dict_lookup k cfg with
                | Some v => Some v
                | None => config_default k
                end) ∧
        load_config_parsed (PDict cfg') = Ok (PDict cfg')
  | _ => load_config_parsed parsed = Raise AttributeError
  end.
Proof.
  destruct parsed as [| | | | |cfg]; try reflexivity.
  eexists. split; [reflexivity|].
  assert (Hlookup : ∀ k,
            dict_lookup k
              (setdefault "servers" (PDict [])
                 (setdefault "allowed_role_names" (PList [])
                    (setdefault "allowed_user_ids" (PList [])
                       (setdefault "category_name" (PStr "Crafty Servers")
                          (setdefault "update_interval" (PInt 60) cfg))))) =
            match dict_lookup k cfg with
            | Some v => Some v
            | None => config_default k
            end).
  { intros k. rewrite !dict_lookup_setdefault. unfold config_default.
    destruct (dict_lookup k cfg); [reflexivity|].
    destruct (String.eqb k "update_interval"); [reflexivity|].
    destruct (String.eqb k "category_name"); [reflexivity|].
    destruct (String.eqb k "allowed_user_ids"); [reflexivity|].
    destruct (String.eqb k "allowed_role_names"); reflexivity. }
  split; [exact Hlookup|].
  unfold load_config_parsed. cbv zeta.
  set (cfg' := setdefault "servers" _ _) in *.
  assert (Hset : ∀ k, is_Some (config_default k) → is_Some (dict_lookup k cfg')).
  { intros k Hk. rewrite Hlookup. destruct (dict_lookup k cfg); [eauto|exact Hk]. }
  rewrite (setdefault_present "update_interval") by (apply Hset; eexists; reflexivity).
  rewrite (setdefault_present "category_name") by (apply Hset; eexists; reflexivity).
  rewrite (setdefault_present "allowed_user_ids") by (apply Hset; eexists; reflexivity).
  rewrite (setdefault_present "allowed_role_names") by (apply Hset; eexists; reflexivity).
  rewrite (setdefault_present "servers") by (apply Hset; eexists; reflexivity).
  reflexivity.
Qed.

Lemma rstrip_slash_slashes (s : string) : ∃ n, s = rstrip_slash s +:+ slashes n.
Proof.
  induction s as [|c s [n IH]]; [exists 0%nat; reflexivity|]. simpl.
  destruct (rstrip_slash s) as [|c' t] eqn:Hr.
  - change (s = slashes n) in IH. destruct (Ascii.eqb c "/") eqn:Hc.
    + apply Ascii.eqb_eq in Hc as ->. exists (S n).
      change (String "/" s = String "/" (slashes n)). f_equal. exact IH.
    + exists n. change (String c s = String c (slashes n)). f_equal. exact IH.
  - exists n. change (String c s = String c (String c' t +:+ slashes n)).
    f_equal. exact IH.
Qed.

Lemma rstrip_slash_ends (s : string) : ends_with_slash (rstrip_slash s) = false.
Proof.
  induction s as [|c s IH]; [reflexivity|]. simpl.
  destruct (rstrip_slash s) as [|c' t] eqn:Hr.
  - destruct (Ascii.eqb c "/") eqn:Hc; [reflexivity|]. simpl. exact Hc.
  - exact IH.
Qed.

(** [CraftyClient.__init__] takes the base URL without its trailing slashes,
    and only those are dropped, so that a path that starts with a slash
    joins it with exactly one; the credentials it finds no key for are
    [None].  Without a [crafty] section it raises [KeyError] for [crafty],
    without a [base_url] in the section [KeyError] for [base_url], and on a
    [base_url] that is not a string [AttributeError]. *)
Theorem client_init_strips_trailing_slashes
    (cfg section : list (string * pyval)) (w : world) :
  dict_lookup "crafty" cfg = Some (PDict section) →
  match dict_lookup "base_url" section with
  | Some (PStr url) =>
      ∃ c n, CraftyClient_init (PDict cfg) w = (Ok c, w) ∧
        url = base c +:+ slashes n ∧
        ends_with_slash (base c) = false ∧
        username c = default PNone (dict_lookup "username" section) ∧
        password c = default PNone (dict_lookup "password" section) ∧
        bearer_token c = default PNone (dict_lookup "bearer_token" section)
  | Some _ => CraftyClient_init (PDict cfg) w = (Raise AttributeError, w)
  | None => CraftyClient_init (PDict cfg) w = (Raise (KeyError "base_url"), w)
  end.
Proof.
  intros Hsection. unfold CraftyClient_init, py_item, py_get. run.
  rewrite Hsection. cbv beta iota.
  destruct (dict_lookup "base_url" section) as [base_url|]; [|reflexivity].
  destruct base_url as [| | |url| |]; try reflexivity.
  destruct (rstrip_slash_slashes url) as [n Hn].
  eexists _, n. split; [reflexivity|]. cbn [base username password bearer_token].
  split; [exact Hn|]. split; [apply rstrip_slash_ends|]. auto.
Qed.

(** * Autocomplete *)

Lemma py_in_empty (hay : string) : py_in "" hay = true.
Proof. unfold py_in. destruct hay; reflexivity. Qed.

(** [server_autocomplete] offers at most 25 choices.  Each is a name of the
    server map, given as name and as value, whose lower-case form contains
    the lower-case form of what was typed; the choices come in the order of
    the map.  When no more than 25 names match, every matching name is
    offered; and when nothing was typed, the first 25 names are. *)
Theorem autocomplete_offers_matching_names
    (lower : string → string) (names : list string) (current : string) :
  let matches n := py_in (lower current) (lower n) in
  let choices := server_autocomplete lower names current in
  (length choices ≤ 25)%nat ∧
  (∀ name value, (name, value) ∈ choices →
     value = name ∧ name ∈ names ∧ matches name = true) ∧
  map fst choices `sublist_of` names ∧
  ((length (List.filter matches names) ≤ 25)%nat →
   ∀ name, name ∈ names → matches name = true → (name, name) ∈ choices) ∧
  (lower current = "" → choices = take 25 (map (λ n, (n, n)) names)).
Proof.
  intros matches choices. subst choices. unfold server_autocomplete. fold matches.
  split; [rewrite length_take; lia|]. split; [|split; [|split]].
  - intros name value Hin. apply subseteq_take in Hin.
    apply list_elem_of_fmap in Hin as (n & [= -> ->] & Hn).
    apply list_elem_of_In, filter_In in Hn as [Hn Hm].
    split; [reflexivity|]. split; [apply list_elem_of_In, Hn|exact Hm].
  - generalize 25%nat. clear. induction names as [|n names IH]; intros k; simpl.
    + destruct k; constructor.
    + destruct (matches n); [|apply sublist_cons, IH].
      destruct k; simpl; [apply sublist_nil_l|apply sublist_skip, IH].
  - intros Hfew name Hn Hm. rewrite take_ge by (rewrite length_map; exact Hfew).
    apply list_elem_of_fmap. exists name. split; [reflexivity|].
    apply list_elem_of_In, filter_In. split; [apply list_elem_of_In, Hn|exact Hm].
  - intros Hempty. f_equal. f_equal. clear -Hempty.
    induction names as [|n names IH]; simpl; [reflexivity|].
    unfold matches at 1. rewrite Hempty, py_in_empty. f_equal. exact IH.
Qed.

(** * Malformed server lists *)

Lemma build_id_by_name_app (good rest : list pyval) (acc : list (pyval * string)) (w : world) :
  Forall (λ s, well_formed_entry s = true) good →
  ∃ acc', build_id_by_name (good ++ rest) acc w = build_id_by_name rest acc' w.
Proof.
  intros Hgood. revert acc.
  induction Hgood as [|s good Hs _ IH]; intros acc; [exists acc; reflexivity|].
  destruct s as [| | | | |d]; try discriminate. simpl in Hs.
  destruct (dict_lookup "server_name" d) as [name|] eqn:Hname; [|discriminate].
  destruct (dict_lookup "server_id" d) as [sid|] eqn:Hsid; [|discriminate].
  destruct (IH ((name, py_str sid) :: acc)) as [acc' Hacc]. exists acc'.
  rewrite <- Hacc. simpl. rewrite run_bind. simpl. rewrite Hname. simpl.
  rewrite run_bind. simpl. rewrite Hsid. simpl. rewrite Hs. reflexivity.
Qed.

(** An entry of the fetched server list without a [server_name], or with
    one but without a [server_id], makes [refresh_server_map] raise
    [KeyError] for that key, whatever follows it in the list; the server map
    stays as it was. *)
Theorem refresh_stops_at_malformed_entry
    (w w1 : world) (good rest : list pyval) (d : list (string * pyval)) :
  get_servers w = (Ok (PList (good ++ PDict d :: rest)), w1) →
  Forall (λ s, well_formed_entry s = true) good →
  (dict_lookup "server_name" d = None →
   refresh_server_map w = (Raise (KeyError "server_name"), w1)) ∧
  (is_Some (dict_lookup "server_name" d) → dict_lookup "server_id" d = None →
   refresh_server_map w = (Raise (KeyError "server_id"), w1)) ∧
  server_map w1 = server_map w.
Proof.
  intros Hget Hgood.
  pose proof (get_servers_client_step w) as Hstep. rewrite Hget in Hstep. simpl in Hstep.
  destruct (build_id_by_name_app good (PDict d :: rest) [] w1 Hgood) as [acc' Hacc].
  assert (Hraise : ∀ e, fst (build_id_by_name (PDict d :: rest) acc' w1) = Raise e →
            refresh_server_map w = (Raise e, w1)).
  { intros e He. rewrite refresh_server_map_unfold, Hget, run_bind. simpl py_iter.
    unfold mret at 1, M_ret at 1. rewrite Hacc, He. reflexivity. }
  split; [|split; [|apply (step_server_map _ _ Hstep)]].
  - intros Hname. apply Hraise. simpl. rewrite run_bind. simpl. rewrite Hname.
    reflexivity.
  - intros [name Hname] Hsid. apply Hraise. simpl. rewrite run_bind. simpl.
    rewrite Hname. simpl. rewrite run_bind. simpl. rewrite Hsid. reflexivity.
Qed.

(** * Stats without data *)

(** When the remote answers the stats request with an object that has no
    [data], [get_stats] returns the empty object, the [running] flag reads
    as false, and the binding wants the Offline name for its channel: its
    only possible call to the chat platform is the rename to that name. *)
Theorem stats_without_data_read_as_offline
    (w w1 : world) (guild_id ch_id : Z) (friendly sid : string)
    (d : list (string * pyval)) :
  known_server w friendly = Some sid →
  _request "GET" ("/api/v2/servers/" +:+ sid +:+ "/stats") true w = (Ok (PDict d), w1) →
  dict_lookup "data" d = None →
  let w' := snd (update_binding guild_id friendly ch_id w) in
  get_stats sid w = (Ok (PDict []), w1) ∧
  (chat_calls (trace w') = chat_calls (trace w) ∨
   chat_calls (trace w') =
     EditChannel ch_id ("🔴 " +:+ capitalize friendly +:+ ": Offline")
     :: chat_calls (trace w)).
Proof.
  intros Hknown Hreq Hdata w'.
  assert (Hstats : get_stats sid w = (Ok (PDict []), w1)).
  { unfold get_stats. rewrite run_bind, Hreq. simpl. rewrite Hdata. reflexivity. }
  split; [exact Hstats|]. subst w'.
  pose proof (get_stats_client_step sid w) as Hstep. rewrite Hstats in Hstep.
  simpl in Hstep.
  rewrite update_binding_unfold, Hknown, Hstats. cbv zeta.
  rewrite <- (client_step_chat_calls _ _ Hstep).
  change (new_name friendly (running_flag []))
    with ("🔴 " +:+ capitalize friendly +:+ ": Offline").
  destruct (get_channel w1 guild_id ch_id) as [current|]; [|auto].
  destruct (String.eqb current _); [auto|].
  destruct (Qlt_le_dec _ _); [auto|].
  destruct (platform w1 0%nat); simpl; auto.
Qed.

(** * The refresh after a request that succeeded *)




End Properties.

(** * The theorems on examples *)

#[local] Existing Instance example_externals.

(** C4 at work: a 401 under a static token. *)
Lemma static_token_never_logs_in_witness :
  truthy (bearer_token (crafty static_token_world)) = true ∧
  login static_token_world =
    (Ok (PStr "static"),
     record (Log UsingStaticToken) (set_token (PStr "static") static_token_world)) ∧
  http_requests (trace (snd (_request "GET" "/api/v2/servers" true static_token_world))) =
    [Request "GET" "https://crafty.local/api/v2/servers" None] ∧
  fst (_request "GET" "/api/v2/servers" true static_token_world) =
    Raise (RuntimeError "HTTP 401: expired").
Proof.
  split; [reflexivity|].
  destruct (static_token_never_logs_in static_token_world eq_refl) as [Hlogin Hreq].
  split; [exact Hlogin|].
  destruct (Hreq "GET" "/api/v2/servers" true) as (Hh & _ & H401).
  split; [exact Hh|].
  exact (H401 (Response 401 "expired" None) eq_refl eq_refl).
Defined.

(** C1 as stated fails where the re-login is refused: after the first 401
    and the one re-login, the request is not sent again, and the caller gets
    the error of the login, not one carrying the request's status and body. *)
Lemma relogin_refused_is_not_retried :
  truthy (bearer_token (crafty relogin_refused_world)) = false ∧
  remote relogin_refused_world 0%nat = Responded (Response 401 "expired" None) ∧
  http_requests
    (trace (snd (_request "GET" "/api/v2/servers" true relogin_refused_world))) =
    [LoginPost "https://crafty.local/api/v2/auth/login" (PStr "admin") (PStr "secret");
     Request "GET" "https://crafty.local/api/v2/servers" None] ∧
  fst (_request "GET" "/api/v2/servers" true relogin_refused_world) =
    Raise (RuntimeError "Login failed 500: down").
Proof. repeat split; vm_compute; reflexivity. Qed.

(** C1 (amended) at work: a 401, a re-login that succeeds, one retry. *)
Lemma relogin_once_then_retry_once_witness :
  (truthy (bearer_token (crafty relogin_world)) = false ∧
   remote relogin_world 0%nat = Responded (Response 401 "expired" None) ∧
   r_status (Response 401 "expired" None) = 401) ∧
  http_requests (trace (snd (_request "GET" "/api/v2/servers" true relogin_world))) =
    [Request "GET" "https://crafty.local/api/v2/servers" (Some "Bearer T");
     LoginPost "https://crafty.local/api/v2/auth/login" (PStr "admin") (PStr "secret");
     Request "GET" "https://crafty.local/api/v2/servers" None] ∧
  fst (_request "GET" "/api/v2/servers" true relogin_world) =
    Ok (PDict [("data", PList [])]).
Proof.
  split; [repeat split|].
  destruct (relogin_once_then_retry_once relogin_world "GET" "/api/v2/servers")
    as [_ H].
  specialize (H (Response 401 "expired" None) eq_refl eq_refl eq_refl).
  destruct H as [_ H]. exact H.
Defined.


(** C8, where the code misses it: the token sits in the top-level [data]
    field.  [login] asks that string for its [token] and raises
    [AttributeError]; no token is stored. *)
Lemma login_token_as_data_raises :
  truthy (bearer_token (crafty token_as_data_world)) = false ∧
  remote token_as_data_world 0%nat =
    Responded (Response 200 "" (Some (PDict [("data", PStr "abc123")]))) ∧
  fst (login token_as_data_world) = Raise AttributeError ∧
  _token (snd (login token_as_data_world)) = PNone.
Proof. repeat split; vm_compute; reflexivity. Qed.

(** C2, where the code misses it: the server list fails with a 500.  The
    error leaves [update_task], which logs nothing about it; the failure of
    one server's stats, in the loop, is caught and logged. *)
Lemma update_task_raises_with_refresh :
  fst (update_task list_fails_world) = Raise (RuntimeError "HTTP 500: boom") ∧
  logged (trace (snd (update_task list_fails_world))) = [] ∧
  chat_calls (trace (snd (update_task list_fails_world))) = [] ∧
  fst (update_task stats_fail_world) = Ok tt ∧
  head (logged (trace (snd (update_task stats_fail_world)))) =
    Some (FailedToUpdate "survival" (RuntimeError "HTTP 500: boom")).
Proof. repeat split; vm_compute; reflexivity. Qed.


(** C5 at work: the map holds an entry when the server list fails with a
    500; the error reaches the caller of the refresh and the entry stays. *)
Lemma refresh_failure_keeps_server_map_witness :
  get_servers stale_map_world =
    (Raise (RuntimeError "HTTP 500: boom"), snd (get_servers stale_map_world)) ∧
  refresh_server_map stale_map_world =
    (Raise (RuntimeError "HTTP 500: boom"), snd (get_servers stale_map_world)) ∧
  server_map (snd (refresh_server_map stale_map_world)) !! "survival" = Some "42".
Proof.
  assert (Hget : get_servers stale_map_world =
            (Raise (RuntimeError "HTTP 500: boom"), snd (get_servers stale_map_world)))
    by (vm_compute; reflexivity).
  destruct (refresh_failure_keeps_server_map stale_map_world) as (Hfail & _).
  destruct (Hfail _ _ Hget) as [Hrefresh Hmap].
  split; [exact Hget|]. split; [exact Hrefresh|].
  rewrite Hrefresh. cbn [snd]. rewrite Hmap. reflexivity.
Defined.

(** C6 as stated fails where the matched server has an empty identifier:
    the remote name "SMP" is the display name of a listed server, yet the
    friendly name is mapped to the configured value and not to that server's
    identifier. *)
Lemma matched_empty_id_maps_to_configured :
  SERVERS_CFG empty_id_world !! "survival" = Some "SMP" ∧
  fst (get_servers empty_id_world) = Ok (PList empty_id_servers) ∧
  (server_id_of <$> last_named "SMP" empty_id_servers) = Some (PStr "") ∧
  fst (refresh_server_map empty_id_world) = Ok tt ∧
  server_map (snd (refresh_server_map empty_id_world)) !! "survival" = Some "SMP" ∧
  server_map (snd (refresh_server_map empty_id_world)) !! "survival" ≠ Some "".
Proof.
  repeat split; try (vm_compute; reflexivity).
  vm_compute. discriminate.
Qed.

(** C6 (amended) at work: the remote name "SMP" is listed with identifier
    42, and "survival" is mapped to "42". *)
Lemma refresh_resolves_configured_names_witness :
  (get_servers two_servers_world =
     (Ok (PList two_servers), snd (get_servers two_servers_world)) ∧
   refresh_server_map two_servers_world =
     (Ok tt, snd (refresh_server_map two_servers_world)) ∧
   SERVERS_CFG two_servers_world !! "survival" = Some "SMP") ∧
  server_map (snd (refresh_server_map two_servers_world)) !! "survival" = Some "42".
Proof.
  assert (Hget : get_servers two_servers_world =
            (Ok (PList two_servers), snd (get_servers two_servers_world)))
    by (vm_compute; reflexivity).
  assert (Hrefresh : refresh_server_map two_servers_world =
            (Ok tt, snd (refresh_server_map two_servers_world)))
    by (vm_compute; reflexivity).
  split; [repeat split; assumption|].
  exact (refresh_resolves_configured_names two_servers_world _ _ two_servers
           "survival" "SMP" Hget Hrefresh eq_refl).
Defined.




(** ** Three poll cycles *)

Lemma first_cycle_reachable : reachable first_cycle.
Proof. apply reach_cycle, reach_start; vm_compute; reflexivity. Defined.

Lemma second_poll_reachable : reachable second_poll.
Proof.
  apply (reach_other first_cycle); [exact first_cycle_reachable|..];
    vm_compute; reflexivity.
Defined.

Lemma second_cycle_reachable : reachable second_cycle.
Proof. apply reach_cycle, first_cycle_reachable. Defined.

Lemma third_poll_reachable : reachable third_poll.
Proof.
  apply (reach_other second_cycle); [exact second_cycle_reachable|..];
    vm_compute; reflexivity.
Defined.

Lemma third_cycle_reachable : reachable third_cycle.
Proof. apply reach_cycle, second_cycle_reachable. Defined.

(** C9 at work: the server is being updated and does not run; the name
    wanted is the Offline one, and the third poll gives it to channel 10. *)
Lemma desired_name_follows_running_flag_witness :
  (known_server third_poll "survival" = Some "42" ∧
   get_stats "42" third_poll =
     (Ok (PDict updating_stats), snd (get_stats "42" third_poll))) ∧
  new_name "survival" (running_flag updating_stats) = "🔴 Survival: Offline" ∧
  chat_calls (trace (snd (update_binding 1 "survival" 10 third_poll))) =
    [EditChannel 10 "🔴 Survival: Offline"; EditChannel 10 "🟢 Survival: Online"] ∧
  get_channel (snd (update_binding 1 "survival" 10 third_poll)) 1 10 =
    Some "🔴 Survival: Offline".
Proof.
  assert (Hknown : known_server third_poll "survival" = Some "42")
    by (vm_compute; reflexivity).
  assert (Hstats : get_stats "42" third_poll =
            (Ok (PDict updating_stats), snd (get_stats "42" third_poll)))
    by (vm_compute; reflexivity).
  split; [split; assumption|].
  destruct (desired_name_follows_running_flag third_poll _ 1 10 "survival" "42"
              updating_stats Hknown Hstats) as (Hname & Hcalls & Hch).
  split; [exact Hname|]. split.
  - destruct Hcalls as [Hcalls|Hcalls]; [vm_compute in Hcalls; discriminate Hcalls|].
    etrans; [exact Hcalls|vm_compute; reflexivity].
  - destruct Hch as [Hch|Hch]; [vm_compute in Hch; discriminate Hch|].
    etrans; [exact Hch|vm_compute; reflexivity].
Defined.


(** C3 at work.  The first poll, at 100, renamed channel 10.  At the second
    poll, at 105, the server no longer runs, but the rename is blocked and
    the channel stays Online; at the third, at 116, the channel is renamed.
    The two renames are 16 apart. *)
Lemma renames_respect_cooldown_witness :
  (reachable second_poll ∧ reachable third_poll ∧ reachable third_cycle) ∧
  (get_channel second_poll 1 10 = Some "🟢 Survival: Online" ∧
   (clock second_poll 0%nat - default 0%Q (channel_last_update second_poll !! 10%Z) == 5)%Q ∧
   get_channel (snd (update_binding 1 "survival" 10 second_poll)) 1 10 =
     Some "🟢 Survival: Online" ∧
   chat_calls (trace (snd (update_binding 1 "survival" 10 second_poll))) =
     chat_calls (trace second_poll)) ∧
  (get_channel third_poll 1 10 = Some "🟢 Survival: Online" ∧
   (clock third_poll 0%nat - default 0%Q (channel_last_update third_poll !! 10%Z) == 16)%Q ∧
   get_channel (snd (update_binding 1 "survival" 10 third_poll)) 1 10 =
     Some "🔴 Survival: Offline" ∧
   channel_last_update (snd (update_binding 1 "survival" 10 third_poll)) !! 10 =
     Some 116%Q) ∧
  renames (trace third_cycle) = [(10, 116%Q); (10, 100%Q)] ∧
  (CHANNEL_COOLDOWN <= 116 - 100)%Q.
Proof.
  split; [repeat split;
          [exact second_poll_reachable|exact third_poll_reachable
          |exact third_cycle_reachable]|].
  split; [|split].
  - destruct (renames_respect_cooldown second_poll second_poll_reachable)
      as [_ Hbinding].
    destruct (Hbinding 1 "survival" 10 "42" updating_stats
                (snd (get_stats "42" second_poll)) "🟢 Survival: Online")
      as [Hblocked _]; try (vm_compute; reflexivity).
    destruct Hblocked as (Hch & _ & _ & Hcalls & _); [vm_compute; reflexivity|].
    split; [vm_compute; reflexivity|]. split; [vm_compute; reflexivity|].
    split; [exact Hch|exact Hcalls].
  - destruct (renames_respect_cooldown third_poll third_poll_reachable)
      as [_ Hbinding].
    destruct (Hbinding 1 "survival" 10 "42" updating_stats
                (snd (get_stats "42" third_poll)) "🟢 Survival: Online")
      as [_ Helapsed]; try (vm_compute; reflexivity).
    destruct Helapsed as (Hch & Hlast & _);
      [vm_compute; discriminate|vm_compute; reflexivity|].
    split; [vm_compute; reflexivity|]. split; [vm_compute; reflexivity|].
    split; [exact Hch|].
    etrans; [exact Hlast|vm_compute; reflexivity].
  - destruct (renames_respect_cooldown third_cycle third_cycle_reachable)
      as [Hspaced _].
    assert (Hrenames : renames (trace third_cycle) = [(10, 116%Q); (10, 100%Q)])
      by (vm_compute; reflexivity).
    split; [exact Hrenames|].
    apply (Hspaced [] [(10, 100%Q)] 10 116%Q 100%Q Hrenames). left. reflexivity.
Defined.


(** ** The further properties on examples *)

(** after the three polls the timestamp of channel 10 is the reading of its
    second rename *)
Lemma timestamps_are_last_renames_witness :
  reachable third_cycle ∧ channel_last_update third_cycle !! 10 = Some 116%Q.
Proof.
  split; [exact third_cycle_reachable|].
  etrans; [exact (timestamps_are_last_renames third_cycle third_cycle_reachable 10)|].
  vm_compute. reflexivity.
Defined.

(** the third poll against a platform that rejects the rename *)
Lemma rejected_rename_records_no_timestamp_witness :
  fst (update_binding 1 "survival" 10 rejecting_poll) = Ok tt ∧
  channel_last_update (snd (update_binding 1 "survival" 10 rejecting_poll)) =
    channel_last_update rejecting_poll ∧
  head (logged (trace (snd (update_binding 1 "survival" 10 rejecting_poll)))) =
    Some (FailedToUpdate "survival" DiscordException).
Proof.
  assert (Hknown : known_server rejecting_poll "survival" = Some "42")
    by (vm_compute; reflexivity).
  assert (Hstats : get_stats "42" rejecting_poll =
            (Ok (PDict updating_stats), snd (get_stats "42" rejecting_poll)))
    by (vm_compute; reflexivity).
  assert (Hch : get_channel rejecting_poll 1 10 = Some "🟢 Survival: Online")
    by (vm_compute; reflexivity).
  assert (Hneq : String.eqb "🟢 Survival: Online"
                   (new_name "survival" (running_flag updating_stats)) = false)
    by (vm_compute; reflexivity).
  assert (Hgap : (CHANNEL_COOLDOWN <= clock rejecting_poll 0%nat -
                    default 0%Q (channel_last_update rejecting_poll !! 10%Z))%Q)
    by (vm_compute; discriminate).
  assert (Hno : platform rejecting_poll 0%nat = false) by reflexivity.
  destruct (rejected_rename_records_no_timestamp rejecting_poll _ 1 10 "survival" "42"
              "🟢 Survival: Online" updating_stats Hknown Hstats Hch Hneq Hgap Hno)
    as (Hok & _ & Hstamp & _ & _ & Hlog).
  split; [exact Hok|]. split; [exact Hstamp|exact Hlog].
Defined.

(** an unreachable remote *)
Lemma transport_failure_is_logged_and_reraised_witness :
  remote idle_world 0%nat = ConnectionFailed ∧
  _request "GET" "/api/v2/servers" true idle_world =
    (Raise ClientConnectionError,
     record (Log NotReachable)
       (answered (Request "GET" "https://crafty.local/api/v2/servers" None) idle_world)).
Proof.
  split; [reflexivity|].
  exact (proj1 (transport_failure_is_logged_and_reraised idle_world
                  "GET" "/api/v2/servers" true) eq_refl).
Defined.

(** a 401, a re-login that succeeds, and a retry that finds no remote *)
Lemma retry_transport_failure_is_logged_twice_witness :
  fst (_request "GET" "/api/v2/servers" true relogin_then_down_world) =
    Raise ClientConnectionError ∧
  logged (trace (snd (_request "GET" "/api/v2/servers" true relogin_then_down_world))) =
    [NotReachable; NotReachable; LoggedIn].
Proof.
  set (w1 := answered (Request "GET" "https://crafty.local/api/v2/servers" None)
               relogin_then_down_world).
  assert (Hlogin : login w1 = (Ok (PStr "T"), snd (login w1)))
    by (vm_compute; reflexivity).
  assert (Hdown : remote (snd (login w1)) 0%nat = ConnectionFailed)
    by (vm_compute; reflexivity).
  destruct (retry_transport_failure_is_logged_twice relogin_then_down_world
              "GET" "/api/v2/servers" (Response 401 "expired" None)
              eq_refl eq_refl eq_refl) as [Htwice _].
  pose proof (Htwice (PStr "T") (snd (login w1)) Hlogin Hdown) as Hreq.
  split; [exact (f_equal fst Hreq)|].
  etrans; [exact (f_equal (λ p, logged (trace (snd p))) Hreq)|].
  vm_compute. reflexivity.
Defined.

(** a 500 on the server list *)
Lemma only_a_401_is_retried_witness :
  fst (_request "GET" "/api/v2/servers" true list_fails_world) =
    Raise (RuntimeError "HTTP 500: boom") ∧
  logins (trace (snd (_request "GET" "/api/v2/servers" true list_fails_world))) = 0%nat.
Proof.
  assert (Hne : r_status (Response 500 "boom" None) ≠ 401) by discriminate.
  destruct (only_a_401_is_retried list_fails_world "GET" "/api/v2/servers" true
              (Response 500 "boom" None) eq_refl (or_introl Hne))
    as (_ & Hlogins & _ & Hres).
  split; [exact Hres|exact Hlogins].
Defined.

(** a credential exchange answered with a 500 *)
Lemma login_stores_token_only_on_success_witness :
  fst (login list_fails_world) = Raise (RuntimeError "Login failed 500: boom") ∧
  _token (snd (login list_fails_world)) = PNone.
Proof.
  assert (Hfail : fst (login list_fails_world) =
                    Raise (RuntimeError "Login failed 500: boom"))
    by (vm_compute; reflexivity).
  split; [exact Hfail|].
  destruct (login_stores_token_only_on_success list_fails_world) as [Hkeep _].
  exact (proj1 (Hkeep _ Hfail)).
Defined.

(** a body whose [data] holds no token: the object itself becomes the token *)
Lemma login_takes_first_token_found_witness :
  fst (login tokenless_data_world) = Ok (PDict tokenless_data).
Proof.
  assert (Hstatus : r_status (Response 200 "" (Some (PDict [("data", PDict tokenless_data)])))
                    < 400) by reflexivity.
  assert (Hdd : tokenless_data ≠ []) by discriminate.
  destruct (login_takes_first_token_found tokenless_data_world
              (Response 200 "" (Some (PDict [("data", PDict tokenless_data)])))
              [("data", PDict tokenless_data)] tokenless_data
              eq_refl eq_refl Hstatus eq_refl eq_refl) as [_ Hdict].
  exact (Hdict eq_refl eq_refl Hdd).
Defined.


(** a refresh against a list that holds the configured server *)
Lemma refresh_publishes_configured_names_witness :
  refresh_server_map two_servers_world =
    (Ok tt, snd (refresh_server_map two_servers_world)) ∧
  ∃ sid, known_server (snd (refresh_server_map two_servers_world)) "survival" = Some sid.
Proof.
  assert (Hrefresh : refresh_server_map two_servers_world =
                       (Ok tt, snd (refresh_server_map two_servers_world)))
    by (vm_compute; reflexivity).
  split; [exact Hrefresh|].
  destruct (refresh_publishes_configured_names two_servers_world _ Hrefresh) as [_ Hknown].
  apply (Hknown "survival" "SMP"); [reflexivity|discriminate].
Defined.

(** an administrator asks for a server that is not in the map *)
Lemma unknown_server_is_reported_witness :
  is_authorized (_cfg idle_world) admin = true ∧
  known_server idle_world "creative" = None ∧
  start admin "creative" idle_world =
    chat (SendMessage "❌ Unknown server creative" true) idle_world ∧
  http_requests
    (trace (snd (chat (SendMessage "❌ Unknown server creative" true) idle_world))) = [].
Proof.
  split; [reflexivity|]. split; [reflexivity|].
  destruct (unknown_server_is_reported idle_world admin "creative" eq_refl eq_refl)
    as (Hstart & _ & _ & _ & Hhttp & _).
  split; [exact Hstart|exact Hhttp].
Defined.

(** an administrator starts a known server, and the remote accepts *)
Lemma action_commands_confirm_after_the_remote_witness :
  is_authorized (_cfg action_world) admin = true ∧
  known_server action_world "survival" = Some "42" ∧
  http_requests (trace (snd (start admin "survival" action_world))) =
    [Request "POST" "https://crafty.local/api/v2/servers/42/action/start_server" None] ∧
  chat_calls (trace (snd (start admin "survival" action_world))) =
    [SendMessage "✅ Starting survival" false].
Proof.
  assert (Hyes : is_authorized (_cfg action_world) admin = true) by reflexivity.
  assert (Hknown : known_server action_world "survival" = Some "42")
    by (vm_compute; reflexivity).
  split; [exact Hyes|]. split; [exact Hknown|].
  destruct (action_commands_confirm_after_the_remote action_world admin "survival" "42"
              Hyes Hknown) as ((_ & Hstart) & _).
  vm_compute in Hstart. destruct Hstart as [_ Hcalls].
  split; vm_compute; [reflexivity|exact Hcalls].
Defined.

(** an administrator asks for the status of a known server *)
Lemma status_reports_public_fields_witness :
  is_authorized (_cfg public_world) admin = true ∧
  known_server public_world "survival" = Some "42" ∧
  chat_calls (trace (snd (status admin "survival" public_world))) =
    [SendMessage "📊 survival — running: True, players: 3/None" false].
Proof.
  assert (Hyes : is_authorized (_cfg public_world) admin = true) by reflexivity.
  assert (Hknown : known_server public_world "survival" = Some "42")
    by (vm_compute; reflexivity).
  split; [exact Hyes|]. split; [exact Hknown|].
  pose proof (status_reports_public_fields public_world admin "survival" "42"
                Hyes Hknown) as Hstatus.
  vm_compute in Hstatus.
  etrans; [|exact (f_equal (λ p, chat_calls (trace (snd p))) Hstatus)].
  vm_compute. reflexivity.
Defined.

(** an administrator reloads the configuration while the remote fails *)
Lemma reload_failure_leaves_new_config_witness :
  fst (reload_config admin list_fails_world) = Raise (RuntimeError "HTTP 500: boom") ∧
  chat_calls (trace (snd (reload_config admin list_fails_world))) = [].
Proof.
  assert (Hrefresh : refresh_server_map (set_config example_config list_fails_world) =
            (Raise (RuntimeError "HTTP 500: boom"),
             snd (refresh_server_map (set_config example_config list_fails_world))))
    by (vm_compute; reflexivity).
  assert (Hyes : is_authorized (_cfg list_fails_world) admin = true) by reflexivity.
  assert (Hload : load_config list_fails_world = (Ok example_config, list_fails_world))
    by reflexivity.
  destruct (reload_failure_leaves_new_config list_fails_world list_fails_world _
              admin example_config _ Hyes Hload Hrefresh)
    as (Hreload & _ & _ & _ & _ & _ & Hcalls).
  split; [exact (f_equal fst Hreload)|].
  etrans; [exact (f_equal (λ p, chat_calls (trace (snd p))) Hreload)|].
  etrans; [exact Hcalls|reflexivity].
Defined.

(** a stranger's command after the three polls *)
Lemma commands_leave_renames_alone_witness :
  renames (trace (snd (start stranger "survival" third_cycle))) =
    [(10, 116%Q); (10, 100%Q)] ∧
  reachable (snd (start stranger "survival" third_cycle)).
Proof.
  destruct (commands_leave_renames_alone third_cycle stranger "survival" start
              (or_introl eq_refl)) as (Hrenames & _ & Hreach).
  split; [|exact (Hreach third_cycle_reachable)].
  etrans; [exact Hrenames|vm_compute; reflexivity].
Defined.

(** a configuration file with a [crafty] section only *)
Lemma client_init_strips_trailing_slashes_witness :
  dict_lookup "crafty" minimal_yaml = Some (PDict crafty_section) ∧
  ∃ c n, CraftyClient_init (PDict minimal_yaml) idle_world = (Ok c, idle_world) ∧
    "https://crafty.local//" = base c +:+ slashes n ∧
    ends_with_slash (base c) = false ∧
    username c = PStr "admin" ∧
    password c = PNone ∧
    bearer_token c = PNone.
Proof.
  split; [reflexivity|].
  exact (client_init_strips_trailing_slashes minimal_yaml crafty_section idle_world eq_refl).
Defined.

(** a server list whose second entry has no name *)
Lemma refresh_stops_at_malformed_entry_witness :
  fst (refresh_server_map malformed_list_world) = Raise (KeyError "server_name") ∧
  server_map (snd (get_servers malformed_list_world)) = server_map malformed_list_world.
Proof.
  assert (Hget : get_servers malformed_list_world =
            (Ok (PList ([PDict [("server_name", PStr "SMP"); ("server_id", PInt 42)]]
                        ++ PDict nameless_entry :: [])),
             snd (get_servers malformed_list_world)))
    by (vm_compute; reflexivity).
  assert (Hgood : Forall (λ s, well_formed_entry s = true)
                    [PDict [("server_name", PStr "SMP"); ("server_id", PInt 42)]])
    by (repeat constructor).
  destruct (refresh_stops_at_malformed_entry malformed_list_world _ _ [] nameless_entry
              Hget Hgood) as (Hname & _ & Hmap).
  split; [exact (f_equal fst (Hname eq_refl))|exact Hmap].
Defined.


(** the stats of server 42 come back without [data] *)
Lemma stats_without_data_read_as_offline_witness :
  get_stats "42" action_world = (Ok (PDict []), snd (get_stats "42" action_world)) ∧
  chat_calls (trace (snd (update_binding 1 "survival" 10 action_world))) =
    [EditChannel 10 "🔴 Survival: Offline"].
Proof.
  assert (Hknown : known_server action_world "survival" = Some "42")
    by (vm_compute; reflexivity).
  assert (Hreq : _request "GET" ("/api/v2/servers/" +:+ "42" +:+ "/stats") true action_world =
            (Ok (PDict [("status", PStr "ok")]), snd (get_stats "42" action_world)))
    by (vm_compute; reflexivity).
  destruct (stats_without_data_read_as_offline action_world _ 1 10 "survival" "42"
              [("status", PStr "ok")] Hknown Hreq eq_refl) as [Hstats Hcalls].
  split; [exact Hstats|].
  destruct Hcalls as [Hcalls|Hcalls]; [vm_compute in Hcalls; discriminate Hcalls|].
  etrans; [exact Hcalls|vm_compute; reflexivity].
Defined.
